(** * markdown-to-confluence: the renderer's link, image and alert-macro logic

    A shallow embedding of [convert.py] (with the part of [pagelayouts.py]
    the renderer's constructor looks at).  Python strings are sequences of
    characters; they are modelled as [list ascii], a character being a code
    point below 256.  [os.path] is [posixpath]. *)

From Stdlib Require Import Ascii String Bool Arith ZArith Lia List.
Import ListNotations.

Local Open Scope list_scope.
Local Open Scope bool_scope.

(** ** Python strings *)

Definition str := list ascii.

(** A string literal of the source. *)
Definition lit (s : string) : str := list_ascii_of_string s.

(** The double quote, for the literals that contain one. *)
Definition dquote : ascii := ascii_of_nat 34.

Module Py.

(** [a == b] on strings. *)
Fixpoint str_eqb (a b : str) : bool :=
  match a, b with
  | [], [] => true
  | x :: a', y :: b' => Ascii.eqb x y && str_eqb a' b'
  | _, _ => false
  end.

(** [c in chars]. *)
Definition mem (c : ascii) (chars : str) : bool :=
  existsb (Ascii.eqb c) chars.

(** [s.startswith(p)]. *)
Fixpoint startswith (p s : str) : bool :=
  match p, s with
  | [], _ => true
  | x :: p', y :: s' => Ascii.eqb x y && startswith p' s'
  | _ :: _, [] => false
  end.

(** [s.lstrip(chars)]: drop leading characters that are in [chars]. *)
Fixpoint lstrip (chars s : str) : str :=
  match s with
  | [] => []
  | c :: s' => if mem c chars then lstrip chars s' else s
  end.

(** [s.rstrip(chars)]. *)
Definition rstrip (chars s : str) : str := rev (lstrip chars (rev s)).

(** [s.strip(chars)]. *)
Definition strip (chars s : str) : str := rstrip chars (lstrip chars s).

(** [s.rfind(c)] for a one-character [c]: the highest index of [c] in [s],
    or -1. [i] is the index of the head of [s], [acc] the answer so far. *)
Fixpoint rfind_from (c : ascii) (s : str) (i acc : Z) : Z :=
  match s with
  | [] => acc
  | x :: s' => rfind_from c s' (i + 1) (if Ascii.eqb x c then i else acc)
  end.

Definition rfind (c : ascii) (s : str) : Z := rfind_from c s 0 (-1).

(** The slices [s[:i]], [s[i:]] and [s[i:j]] for indices [0 <= i]. *)
Definition upto (i : Z) (s : str) : str := firstn (Z.to_nat i) s.
Definition from (i : Z) (s : str) : str := skipn (Z.to_nat i) s.
Definition slice (i j : Z) (s : str) : str := from i (upto j s).

(** [sub in s]: [sub] occurs in [s] as a substring. *)
Fixpoint contains (sub s : str) : bool :=
  startswith sub s ||
  match s with
  | [] => false
  | _ :: s' => contains sub s'
  end.

(** [s.replace(old, new)]: the occurrences of [old] are found from left to
    right and do not overlap; after a match at index [i] the scan resumes at
    [i + len(old)].  [skip] counts the characters of the current match that
    are still to be passed over. *)
Fixpoint replace_from (old new : str) (skip : nat) (s : str) : str :=
  match s with
  | [] => []
  | c :: s' =>
      match skip with
      | S k => replace_from old new k s'
      | O =>
          if startswith old s
          then new ++ replace_from old new (length old - 1) s'
          else c :: replace_from old new 0 s'
      end
  end.

(** An empty [old] matches before every character and at the end. *)
Definition replace (old new s : str) : str :=
  match old with
  | [] => new ++ flat_map (fun c => c :: new) s
  | _ :: _ => replace_from old new 0 s
  end.

(** The characters [str.strip()] removes when called with no argument:
    those for which [isspace] holds, among the code points below 256. *)
Definition whitespace : str :=
  map ascii_of_nat [9; 10; 11; 12; 13; 28; 29; 30; 31; 32; 133; 160].

Definition newline : ascii := ascii_of_nat 10.

(** [f.readlines()] on the text of a file: the lines, each with its line
    end.  The text is what a file opened in text mode yields, every line end
    already a single newline character. *)
Fixpoint readlines (s : str) : list str :=
  match s with
  | [] => []
  | c :: s' =>
      if Ascii.eqb c newline then [c] :: readlines s'
      else match readlines s' with
           | [] => [[c]]
           | l :: ls => (c :: l) :: ls
           end
  end.

(** [x or d] on an optional string: [None] and the empty string are falsy. *)
Definition or_else (x : option str) (d : str) : str :=
  match x with
  | Some (c :: s) => c :: s
  | _ => d
  end.

End Py.

(** ** [os.path] (posixpath) *)

Module OsPath.

Definition sep : ascii := "/"%char.
Definition extsep : ascii := "."%char.

(** [posixpath.dirname]:
<<
    i = p.rfind(sep) + 1
    head = p[:i]
    if head and head != sep*len(head):
        head = head.rstrip(sep)
    return head
>> *)
Definition dirname (p : str) : str :=
  let i := (Py.rfind sep p + 1)%Z in
  let head := Py.upto i p in
  match head with
  | [] => head
  | _ :: _ =>
      if negb (Py.str_eqb head (repeat sep (length head)))
      then Py.rstrip [sep] head
      else head
  end.

(** [posixpath.basename]: [i = p.rfind(sep) + 1; return p[i:]]. *)
Definition basename (p : str) : str :=
  let i := (Py.rfind sep p + 1)%Z in
  Py.from i p.

(** [posixpath.splitext] ([genericpath._splitext] with no [altsep]): the
    extension starts at the last dot, when that dot lies after the last
    separator and some character between the two is not a dot. *)
Definition splitext (p : str) : str * str :=
  let sepIndex := Py.rfind sep p in
  let dotIndex := Py.rfind extsep p in
  if (sepIndex <? dotIndex)%Z then
    if existsb (fun c => negb (Ascii.eqb c extsep))
               (Py.slice (sepIndex + 1) dotIndex p)
    then (Py.upto dotIndex p, Py.from dotIndex p)
    else (p, [])
  else (p, []).

End OsPath.

(** ** Link classification *)

(** [class Link(IntEnum)]. *)
Inductive Link : Type :=
| UNKNOWN
| HEADING
| ATTACHMENT
| MD_PAGE_REFERENCE.

(** [ConfluenceRenderer.resolve_link]. *)
Definition resolve_link (link : str) : Link :=
  if Py.startswith (lit "#") link then HEADING
  else if Py.str_eqb (OsPath.dirname link) (lit "images") then ATTACHMENT
  else
    let ext := snd (OsPath.splitext link) in
    if Py.str_eqb ext (lit ".md") then MD_PAGE_REFERENCE
    else UNKNOWN.

(** ** Splitting a post into front matter and Markdown *)

Definition YAML_BOUNDARY : str := lit "---".

(** The three variables of [parse]'s loop. *)
Record ParseState : Type := mkParseState {
  raw_yaml : str;
  markdown : str;
  in_yaml : bool
}.

(** [line.strip() == YAML_BOUNDARY]. *)
Definition is_boundary (line : str) : bool :=
  Py.str_eqb (Py.strip Py.whitespace line) YAML_BOUNDARY.

(** One turn of the loop [for line in post.readlines()]. *)
Definition parse_line (st : ParseState) (line : str) : ParseState :=
  let add_line st :=
    if in_yaml st
    then mkParseState (raw_yaml st ++ line) (markdown st) (in_yaml st)
    else mkParseState (raw_yaml st) (markdown st ++ line) (in_yaml st) in
  (* Check if this is the ending tag *)
  if is_boundary line then
    if in_yaml st && negb (Py.str_eqb (raw_yaml st) []) then
      mkParseState (raw_yaml st) (markdown st) false   (* continue *)
    else add_line st
  else add_line st.

(** The loop of [parse], from [raw_yaml = ''], [markdown = ''],
    [in_yaml = True]. *)
Definition parse_lines (lines : list str) : ParseState :=
  fold_left parse_line lines (mkParseState [] [] true).

(** [parse], on the text of the post at [post_path].  [yaml_load] is
    [yaml.load(_, Loader=yaml.SafeLoader)]; it answers [None] where the
    library raises. *)
Definition parse {FrontMatter : Type} (yaml_load : str -> option FrontMatter)
    (post : str) : option (FrontMatter * str) :=
  let st := parse_lines (Py.readlines post) in
  match yaml_load (raw_yaml st) with
  | None => None
  | Some front_matter =>
      let markdown := Py.strip Py.whitespace (markdown st) in
      Some (front_matter, markdown)
  end.

(** ** Alert macros *)

Definition info_tag : str :=
  lit "<p><ac:structured-macro ac:name=" ++ [dquote] ++ lit "info" ++ [dquote]
  ++ lit "><ac:rich-text-body><p>".
Definition tip_tag : str := Py.replace (lit "info") (lit "tip") info_tag.
Definition note_tag : str := Py.replace (lit "info") (lit "note") info_tag.
Definition warning_tag : str := Py.replace (lit "info") (lit "warning") info_tag.
Definition close_tag : str :=
  lit "</p></ac:rich-text-body></ac:structured-macro></p>".

(** [h |> f] feeds [h] to [f]: a chain [html.replace(..).replace(..)] reads
    from left to right. *)
Notation "h |> f" := (f h) (at level 45, left associativity, only parsing).

(** [convert_info_macros]. *)
Definition convert_info_macros (html : str) : str :=
  (* convert custom block alert macros into Confluence supported format *)
  let html := html |> Py.replace (lit "<p>~:</p>") info_tag
                   |> Py.replace (lit "<p>:~</p>") close_tag in
  let html := html |> Py.replace (lit "<p>~%</p>") tip_tag
                   |> Py.replace (lit "<p>%~</p>") close_tag in
  let html := html |> Py.replace (lit "<p>~?</p>") note_tag
                   |> Py.replace (lit "<p>?~</p>") close_tag in
  let html := html |> Py.replace (lit "<p>~!</p>") warning_tag
                   |> Py.replace (lit "<p>!~</p>") close_tag in
  (* convert custom inline alert macros into Confluence supported format *)
  let html := html |> Py.replace (lit "<p>~:") info_tag
                   |> Py.replace (lit ":~</p>") close_tag in
  let html := html |> Py.replace (lit "<p>~%") tip_tag
                   |> Py.replace (lit "%~</p>") close_tag in
  let html := html |> Py.replace (lit "<p>~?") note_tag
                   |> Py.replace (lit "?~</p>") close_tag in
  let html := html |> Py.replace (lit "<p>~!") warning_tag
                   |> Py.replace (lit "!~</p>") close_tag in
  (* convert custom alert macros (nested in tables) into Confluence supported format *)
  let html := html |> Py.replace (lit "~:") info_tag
                   |> Py.replace (lit ":~") close_tag in
  let html := html |> Py.replace (lit "~%") tip_tag
                   |> Py.replace (lit "%~") close_tag in
  let html := html |> Py.replace (lit "~?") note_tag
                   |> Py.replace (lit "?~") close_tag in
  let html := html |> Py.replace (lit "~!") warning_tag
                   |> Py.replace (lit "!~") close_tag in
  html.

(** The eight raw delimiters. *)
Definition delimiters : list str :=
  map lit ["~:"; ":~"; "~%"; "%~"; "~?"; "?~"; "~!"; "!~"]%string.

(** ** Page layouts ([pagelayouts.py]) *)

(** An instance of [AbstractConfluencePage]: its three abstract methods, and
    its truth value ([True] unless a subclass defines [__bool__] or
    [__len__]; neither class of [pagelayouts.py] does). *)
Record AbstractConfluencePage : Type := mkPage {
  render_toc : bool -> str;
  render_authors : list (str * str) -> str;
  render_page : str -> str -> str -> str;
  page_bool : bool
}.

(** The template method [AbstractConfluencePage.render]. *)
Definition render (self : AbstractConfluencePage) (content : str)
    (authors : list (str * str)) (has_toc : bool) : str :=
  let toc := render_toc self has_toc in
  let contributors := render_authors self authors in
  render_page self content contributors toc.

(** ** The renderer *)

(** The values a caller can hand to the constructor of the renderer. *)
Inductive PyValue : Type :=
| PyNone
| PyStr (s : str)
| PyCallable (f : str -> str)
| PyPage (p : AbstractConfluencePage).

(** [bool(v)]. *)
Definition truth (v : PyValue) : bool :=
  match v with
  | PyNone => false
  | PyStr s => negb (Py.str_eqb s [])
  | PyCallable _ => true
  | PyPage p => page_bool p
  end.

(** [isinstance(v, AbstractConfluencePage)], with the instance. *)
Definition as_page (v : PyValue) : option AbstractConfluencePage :=
  match v with
  | PyPage p => Some p
  | _ => None
  end.

(** [callable(v)], with the function. *)
Definition as_callable (v : PyValue) : option (str -> str) :=
  match v with
  | PyCallable f => Some f
  | _ => None
  end.

(** [InvalidArgumentException(arg_name, value, expectation)]. *)
Record InvalidArgumentException : Type := mkInvalidArgument {
  arg_name : str;
  value : PyValue;
  expectation : str
}.

(** The state of a [ConfluenceRenderer]. *)
Record ConfluenceRenderer : Type := mkRenderer {
  has_toc : bool;
  attachments : list str;
  page_layout : AbstractConfluencePage;
  get_page_title : option (str -> str)
}.

(** [ConfluenceRenderer.__init__]: the exception, or the new renderer.
    [type(AbstractConfluencePage).__name__] is the name of the metaclass. *)
Definition __init__ (page_layout get_title_func : PyValue)
  : InvalidArgumentException + ConfluenceRenderer :=
  let invalid :=
    mkInvalidArgument (lit "page_layout") page_layout (lit "ABCMeta") in
  match as_page page_layout with
  | None => inl invalid                       (* not isinstance(..) *)
  | Some p =>
      if negb (truth page_layout) then inl invalid   (* not page_layout *)
      else inr (mkRenderer false [] p (as_callable get_title_func))
  end.

(** [self.attachments.append(a)]. *)
Definition append_attachment (self : ConfluenceRenderer) (a : str)
  : ConfluenceRenderer :=
  mkRenderer (has_toc self) (attachments self ++ [a]) (page_layout self)
             (get_page_title self).

(** [ConfluenceRenderer.layout]; [authors=None] is the empty list. *)
Definition layout (self : ConfluenceRenderer) (content : str)
    (authors : option (list (str * str))) : str :=
  let authors := match authors with None => [] | Some a => a end in
  render (page_layout self) content authors (has_toc self).

(** What the renderer takes from the libraries it is built on. *)
Class Library : Type := mkLibrary {
  (** [urlparse(url).netloc] *)
  netloc : str -> str;
  (** [mistune.escape(text, quote=True)] *)
  escape : str -> str;
  (** [mistune.Renderer.link(src, title, text)] *)
  super_link : str -> option str -> str -> str;
  (** [mistune.Renderer.header(text, level, raw)] *)
  super_header : str -> nat -> option str -> str
}.

(** [" ... "]: a value between double quotes. *)
Definition quoted (s : str) : str := [dquote] ++ s ++ [dquote].

(** A line of a dedented template: its indentation, its text, a newline. *)
Definition line (indent : nat) (s : str) : str :=
  repeat " "%char indent ++ s ++ [Py.newline].

Section Hooks.

Context {lib : Library}.

(** Each hook answers its markup and the renderer after the call. *)

Definition header (self : ConfluenceRenderer) (text : str) (level : nat)
    (raw : option str) : str * ConfluenceRenderer :=
  let self := mkRenderer true (attachments self) (page_layout self)
                         (get_page_title self) in
  (super_header text level raw, self).

(** [block_code]: [textwrap.dedent] takes the twelve spaces of margin off
    every line of the template and empties its last, blank line. *)
Definition block_code (code : str) (lang : option str) : str :=
  line 0 (lit "<ac:structured-macro ac:name=" ++ quoted (lit "code")
          ++ lit " ac:schema-version=" ++ quoted (lit "1") ++ lit ">")
  ++ line 4 (lit "<ac:parameter ac:name=" ++ quoted (lit "language") ++ lit ">"
             ++ Py.or_else lang (lit "text") ++ lit "</ac:parameter>")
  ++ line 4 (lit "<ac:plain-text-body><![CDATA[" ++ code
             ++ lit "]]></ac:plain-text-body>")
  ++ line 0 (lit "</ac:structured-macro>").

Definition linebreak : str := lit "<br />".

Definition hrule : str := lit "<hr />".

(** [tag_template.format(image_tag=.., caption=..)] of [image]. *)
Definition tag_template (image_tag caption : str) : str :=
  lit "<ac:image ac:align=" ++ quoted (lit "center") ++ lit ">" ++ image_tag
  ++ lit " <div style=" ++ quoted (lit "text-align: center;") ++ lit "><em>"
  ++ caption ++ lit "</em></div></ac:image>".

(** [ConfluenceRenderer.image]. *)
Definition image (self : ConfluenceRenderer) (src : str) (title : option str)
    (alt_text : str) : str * ConfluenceRenderer :=
  (* Check if the image is externally hosted, or hosted as a static
     file within the repo *)
  let is_external := negb (Py.str_eqb (netloc src) []) in
  let image_tag := lit "<ri:url ri:value=" ++ quoted src ++ lit " />" in
  if negb is_external then
    let image_tag :=
      lit "<ri:attachment ri:filename=" ++ quoted (OsPath.basename src)
      ++ lit " />" in
    let attachment := Py.lstrip (lit "/") src in
    let attachment :=
      if Py.startswith (lit "images") attachment
      then Py.from (Z.of_nat (length (lit "images"))) attachment
      else attachment in
    let self := append_attachment self attachment in
    (tag_template image_tag (Py.strip (lit "*_") alt_text), self)
  else
    (tag_template image_tag (Py.strip (lit "*_") alt_text), self).

(** The body shared by the three [<ac:link>] templates, at indentation
    [indent]. *)
Definition plain_text_link_body (indent : nat) (text : str) : str :=
  line indent (lit "<ac:plain-text-link-body>")
  ++ line (indent + 4) (lit "<![CDATA[" ++ text ++ lit "]]>")
  ++ line indent (lit "</ac:plain-text-link-body>").

(** The three templates of [link] after [textwrap.dedent] and [format]. *)
Definition attachment_link (file text : str) : str :=
  line 0 (lit "<ac:link>")
  ++ line 4 (lit "<ri:attachment ri:filename=" ++ quoted file ++ lit " />")
  ++ plain_text_link_body 4 text
  ++ line 0 (lit "</ac:link>").

Definition page_link (title text : str) : str :=
  line 0 (lit "<ac:link>")
  ++ line 4 (lit "<ri:page ri:content-title=" ++ quoted title ++ lit " />")
  ++ plain_text_link_body 4 text
  ++ line 0 (lit "</ac:link>").

Definition heading_link (heading text : str) : str :=
  line 0 (lit "<ac:link ac:anchor=" ++ quoted heading ++ lit ">")
  ++ plain_text_link_body 4 text
  ++ line 0 (lit "</ac:link>").

(** [ConfluenceRenderer.link], with the method it calls as
    [self.resolve_link] as an argument. *)
Definition link_via (resolve : str -> Link) (self : ConfluenceRenderer)
    (src : str) (title : option str) (text : str)
  : str * ConfluenceRenderer :=
  (* Check if the url is an externally hosted webpage, or a
     cross-reference to another documentation (.md) file *)
  let is_external := negb (Py.str_eqb (netloc src) []) in
  if is_external then (super_link src title text, self)
  else
    (* custom handling for internal links *)
    let link_type := resolve src in
    match link_type with
    | ATTACHMENT =>
        let self := append_attachment self src in
        (* link to a file attachment *)
        (attachment_link (OsPath.basename src) text, self)
    | MD_PAGE_REFERENCE =>
        let title :=
          match get_page_title self with
          | Some get_title => Some (escape (get_title src))
          | None => title
          end in
        (page_link (Py.or_else title []) text, self)
    | HEADING =>
        (heading_link (Py.or_else title []) text, self)
    | UNKNOWN => (super_link src title text, self)
    end.

Definition link : ConfluenceRenderer -> str -> option str -> str
                  -> str * ConfluenceRenderer :=
  link_via resolve_link.

End Hooks.

(** ** More of [posixpath] *)

(** [s.endswith(p)]. *)
Definition endswith (p s : str) : bool := Py.startswith (rev p) (rev s).

Module PosixPath.

(** [posixpath.split]: the head as [dirname] has it, the tail as
    [basename]. *)
Definition split (p : str) : str * str := (OsPath.dirname p, OsPath.basename p).

(** [posixpath.join(a, b)]:
<<
    if b.startswith(sep): path = b
    elif not path or path.endswith(sep): path += b
    else: path += sep + b
>> *)
Definition join (a b : str) : str :=
  if Py.startswith [OsPath.sep] b then b
  else if Py.str_eqb a [] || endswith [OsPath.sep] a then a ++ b
  else a ++ [OsPath.sep] ++ b.

End PosixPath.

(** ** The documents of a repository ([docs.py]) *)

Definition DOCS_ROOT : str := lit "content".
Definition ASSETS_DIR : str := lit "images".

Definition backslash : ascii := ascii_of_nat 92.

(** The text [..\], a step to the parent directory. *)
Definition parent_step : str := lit ".." ++ [backslash].

(** The loop of [normalize_path]:
<<
    while path.startswith('..\\'):
        path = path[len('..\\'):]
>> *)
Fixpoint strip_parent_steps (path : str) : str :=
  if Py.startswith parent_step path then
    match path with
    | _ :: _ :: _ :: rest => strip_parent_steps rest
    | _ => path
    end
  else path.

(** [normalize_path]. *)
Definition normalize_path (file_path : str) : str :=
  (* make directory separators consistent *)
  let path := Py.replace (lit "/") [backslash] file_path in
  (* strip all leading '..\\' sequences in relative paths *)
  strip_parent_steps path.

(** [c] with [a] turned into [b]. *)
Definition swap_char (a b c : ascii) : ascii :=
  if Ascii.eqb a c then b else c.

(** A [dict] with string keys, in insertion order. *)
Definition dict (V : Type) : Type := list (str * V).

(** [d[k]]. *)
Fixpoint dict_get {V : Type} (k : str) (d : dict V) : option V :=
  match d with
  | [] => None
  | (k', v) :: rest => if Py.str_eqb k' k then Some v else dict_get k rest
  end.

(** [d[k] = v]: a key that is there keeps its place. *)
Fixpoint dict_set {V : Type} (k : str) (v : V) (d : dict V) : dict V :=
  match d with
  | [] => [(k, v)]
  | (k', v') :: rest =>
      if Py.str_eqb k' k then (k', v) :: rest
      else (k', v') :: dict_set k v rest
  end.

Module MarkdownFile.

Record t : Type := mk {
  path : str;
  slug : str;
  title : str
}.

(** [__get_slug__(self, file_name, parent_dir)]; [name] is not used. *)
Definition __get_slug__ (file_name parent_dir : str) : str :=
  let name := fst (OsPath.splitext file_name) in
  let slug := parent_dir ++ lit "_" ++ file_name in
  let slug := Py.replace (lit "-") (lit "_") slug in
  slug.

Section Loading.

(** What stands behind [parse(self.path)] and [front_matter['title']]: the
    text of the file at a path, the YAML loader, and the lookup of a key in
    what it loads; each answers [None] where Python raises.  A title is
    taken to be a string. *)
Context {FrontMatter : Type}.
Variable read_text : str -> option str.
Variable yaml_load : str -> option FrontMatter.
Variable getitem : FrontMatter -> str -> option str.

(** [MarkdownFile.__init__(file_name, dir_name, abs_path)]: the file, or
    [None] for an exception.  The slug is asked for with [dir_name] first. *)
Definition __init__ (file_name dir_name abs_path : str) : option t :=
  let path := PosixPath.join abs_path file_name in
  let slug := __get_slug__ dir_name file_name in
  match read_text path with
  | None => None
  | Some post =>
      match parse yaml_load post with
      | None => None
      | Some (front_matter, markdown) =>
          match getitem front_matter (lit "title") with
          | None => None
          | Some title => Some (mk path slug title)
          end
      end
  end.

End Loading.

End MarkdownFile.

Module Directory.

Record t : Type := mk {
  path : str;
  md_files : dict MarkdownFile.t
}.

Definition __init__ (abs_path : str) : t := mk abs_path [].

(** [__bool__]: [len(self.__md_files) > 0]. *)
Definition __bool__ (self : t) : bool := 0 <? length (md_files self).

(** [find_file]: the file at the first key that holds [file_name]. *)
Definition find_file (self : t) (file_name : str) : option MarkdownFile.t :=
  match find (fun path => Py.contains file_name path)
             (map fst (md_files self)) with
  | Some path => dict_get path (md_files self)
  | None => None
  end.

Definition add_file (self : t) (md_file : MarkdownFile.t) : t :=
  mk (path self) (dict_set (MarkdownFile.path md_file) md_file (md_files self)).

End Directory.

Module MarkdownPages.

Definition __MARKDOWN_EXT__ : str := lit ".md".

(** [self.__md_docs_tree]. *)
Definition t : Type := dict Directory.t.

Section Scan.

Context {FrontMatter : Type}.
Variable read_text : str -> option str.
Variable yaml_load : str -> option FrontMatter.
Variable getitem : FrontMatter -> str -> option str.

(** The loop [for file in files] of [__scan_repository__]. *)
Definition scan_file (dir_name dir_path : str) (directory : Directory.t)
    (file : str) : Directory.t :=
  (* skip all files that aren't markdown docs *)
  let ext := snd (OsPath.splitext file) in
  if negb (Py.str_eqb ext __MARKDOWN_EXT__) then directory
  else
    match MarkdownFile.__init__ read_text yaml_load getitem
                                file dir_name dir_path with
    | None => directory                       (* except: log.error *)
    | Some md_file => Directory.add_file directory md_file
    end.

(** One turn of the loop over [os.walk(docs_path)]; an entry is
    [(dir_path, sub_dirs, files)]. *)
Definition scan_directory (tree : t) (entry : str * list str * list str) : t :=
  let '(dir_path, sub_dirs, files) := entry in
  (* skip assets: they only contain attachments *)
  let dir_name := snd (PosixPath.split dir_path) in
  if Py.str_eqb dir_name ASSETS_DIR then tree
  else
    let directory :=
      fold_left (scan_file dir_name dir_path) files
                (Directory.__init__ dir_path) in
    (* store non-empty directories only *)
    if Directory.__bool__ directory then dict_set dir_path directory tree
    else tree.

(** [__scan_repository__], on what [os.walk(docs_path)] yields, from the
    empty tree. *)
Definition __scan_repository__ (walk : list (str * list str * list str)) : t :=
  fold_left scan_directory walk [].

End Scan.

(** The loop of [get_title]: the first directory with a match. *)
Fixpoint first_match (doc_name : str) (dirs : list Directory.t)
  : option MarkdownFile.t :=
  match dirs with
  | [] => None
  | dir :: rest =>
      match Directory.find_file dir doc_name with
      | Some matched_file => Some matched_file
      | None => first_match doc_name rest
      end
  end.

(** [get_title]; a [MarkdownFile] is truthy. *)
Definition get_title (self : t) (md_doc : str) : str :=
  let doc_name := normalize_path md_doc in
  match first_match doc_name (map snd self) with
  | Some matched_file => MarkdownFile.title matched_file
  | None => []
  end.

End MarkdownPages.

(** ** What a scan looks at *)

Section ScanInput.

Context {FrontMatter : Type}.
Variable read_text : str -> option str.
Variable yaml_load : str -> option FrontMatter.
Variable getitem : FrontMatter -> str -> option str.

(** The directory of a walk entry is no assets directory. *)
Definition not_assets (entry : str * list str * list str) : bool :=
  let '(dir_path, _, _) := entry in
  negb (Py.str_eqb (OsPath.basename dir_path) ASSETS_DIR).

(** [file] of the directory [dir_path] is a Markdown file that loads. *)
Definition loads (dir_path file : str) : bool :=
  Py.str_eqb (snd (OsPath.splitext file)) MarkdownPages.__MARKDOWN_EXT__
  && match MarkdownFile.__init__ read_text yaml_load getitem
                                 file (OsPath.basename dir_path) dir_path with
     | Some _ => true
     | None => false
     end.

(** A walk entry with the files that load alone. *)
Definition keep_loading (entry : str * list str * list str)
  : str * list str * list str :=
  let '(dir_path, sub_dirs, files) := entry in
  (dir_path, sub_dirs, filter (loads dir_path) files).

(** What holds of a directory while its files are scanned: it stands under
    its path, and each of its files under its own, a Markdown file among
    [files] that loaded. *)
Definition scanned_directory (files : list str) (dir_path : str)
    (directory : Directory.t) : Prop :=
  Directory.path directory = dir_path
  /\ forall k f,
       In (k, f) (Directory.md_files directory) ->
       k = MarkdownFile.path f
       /\ exists file,
            In file files
            /\ snd (OsPath.splitext file) = lit ".md"
            /\ MarkdownFile.__init__ read_text yaml_load getitem
                 file (OsPath.basename dir_path) dir_path = Some f.

End ScanInput.

(** ** The hooks as steps of a renderer *)

(** One call of a hook that touches the renderer. *)
Inductive hook_step {lib : Library}
  : ConfluenceRenderer -> ConfluenceRenderer -> Prop :=
| step_header self text level raw :
    hook_step self (snd (header self text level raw))
| step_image self src title alt_text :
    hook_step self (snd (image self src title alt_text))
| step_link self src title text :
    hook_step self (snd (link self src title text)).

(** Any number of calls. *)
Inductive hook_steps {lib : Library}
  : ConfluenceRenderer -> ConfluenceRenderer -> Prop :=
| steps_none self : hook_steps self self
| steps_more self self' self'' :
    hook_steps self self' -> hook_step self' self'' -> hook_steps self self''.



(** ** Notions the proofs use *)

(** The first and the last character of a string. *)
Definition first_is (b : ascii) (s : str) : bool :=
  match s with
  | [] => false
  | c :: _ => Ascii.eqb b c
  end.

Fixpoint last_is (a : ascii) (s : str) : bool :=
  match s with
  | [] => false
  | [c] => Ascii.eqb a c
  | _ :: s' => last_is a s'
  end.

(** [s] holds one of the eight raw delimiters. *)
Definition has_delimiter (s : str) : bool :=
  existsb (fun d => Py.contains d s) delimiters.

(** The replacements of [convert_info_macros], in order: the block forms,
    the inline forms, the bare forms. *)
Definition block_rules : list (str * str) :=
  [ (lit "<p>~:</p>", info_tag);    (lit "<p>:~</p>", close_tag);
    (lit "<p>~%</p>", tip_tag);     (lit "<p>%~</p>", close_tag);
    (lit "<p>~?</p>", note_tag);    (lit "<p>?~</p>", close_tag);
    (lit "<p>~!</p>", warning_tag); (lit "<p>!~</p>", close_tag) ].

Definition inline_rules : list (str * str) :=
  [ (lit "<p>~:", info_tag);        (lit ":~</p>", close_tag);
    (lit "<p>~%", tip_tag);         (lit "%~</p>", close_tag);
    (lit "<p>~?", note_tag);        (lit "?~</p>", close_tag);
    (lit "<p>~!", warning_tag);     (lit "!~</p>", close_tag) ].

Definition bare_rules : list (str * str) :=
  [ (lit "~:", info_tag);           (lit ":~", close_tag);
    (lit "~%", tip_tag);            (lit "%~", close_tag);
    (lit "~?", note_tag);           (lit "?~", close_tag);
    (lit "~!", warning_tag);        (lit "!~", close_tag) ].

Definition rules : list (str * str) :=
  block_rules ++ inline_rules ++ bare_rules.

Definition apply_rule (html : str) (rule : str * str) : str :=
  Py.replace (fst rule) (snd rule) html.

(** ** The claims as the specification words them

    Two definitions that follow the specification where it departs from the
    code; they are compared with the code below. *)

(** [s.removeprefix(p)]. *)
Definition removeprefix (p s : str) : str :=
  if Py.startswith p s then Py.from (Z.of_nat (length p)) s else s.

(** The link classes with the second rule as the specification has it: the
    base name of the containing directory is the assets directory. *)
Definition claimed_resolve_link (link : str) : Link :=
  if Py.startswith (lit "#") link then HEADING
  else if Py.str_eqb (OsPath.basename (OsPath.dirname link)) (lit "images")
  then ATTACHMENT
  else if Py.str_eqb (snd (OsPath.splitext link)) (lit ".md")
  then MD_PAGE_REFERENCE
  else UNKNOWN.

(** The attachment of an image as the specification has it: the leading
    [images/] prefix removed, leading separators trimmed. *)
Definition claimed_image_attachment (src : str) : str :=
  Py.lstrip (lit "/") (removeprefix (lit "images/") src).

(** ** Library functions to run the hooks on examples

    The theorems below hold for every [Library]; this instance gives the
    hooks something to run with. *)

Module Reference.

Definition is_alpha (c : ascii) : bool :=
  let n := nat_of_ascii c in
  ((65 <=? n) && (n <=? 90)) || ((97 <=? n) && (n <=? 122)).

Definition is_scheme_char (c : ascii) : bool :=
  let n := nat_of_ascii c in
  is_alpha c || ((48 <=? n) && (n <=? 57)) || Py.mem c (lit "+-.").

(** The text before the first [c] and the text after it. *)
Fixpoint partition (c : ascii) (s : str) : option (str * str) :=
  match s with
  | [] => None
  | x :: s' =>
      if Ascii.eqb x c then Some ([], s')
      else match partition c s' with
           | Some (before, after) => Some (x :: before, after)
           | None => None
           end
  end.

Fixpoint take_until (stops s : str) : str :=
  match s with
  | [] => []
  | c :: s' => if Py.mem c stops then [] else c :: take_until stops s'
  end.

(** The network location as [urllib.parse.urlsplit] finds it: leading
    control characters and spaces and every tab and line end dropped, a
    scheme and its colon passed over, then what stands between a leading
    double slash and the next slash, question mark or hash. *)
Definition urlsplit_netloc (url : str) : str :=
  let url := Py.lstrip (map ascii_of_nat (seq 0 33)) url in
  let url := filter (fun c => negb (Py.mem c (map ascii_of_nat [9; 10; 13]))) url in
  let url :=
    match partition ":"%char url with
    | Some (c :: scheme, rest) =>
        if is_alpha c && forallb is_scheme_char scheme then rest else url
    | _ => url
    end in
  match url with
  | "/"%char :: "/"%char :: rest => take_until (lit "/?#") rest
  | _ => []
  end.

(** Escaping of the five characters of HTML, the ampersand first. *)
Definition html_escape (text : str) : str :=
  text |> Py.replace (lit "&") (lit "&amp;")
       |> Py.replace (lit "<") (lit "&lt;")
       |> Py.replace (lit ">") (lit "&gt;")
       |> Py.replace [dquote] (lit "&quot;")
       |> Py.replace (lit "'") (lit "&#39;").

(** A plain hyperlink, with the title when there is one. *)
Definition html_link (src : str) (title : option str) (text : str) : str :=
  match Py.or_else title [] with
  | [] => lit "<a href=" ++ quoted (html_escape src) ++ lit ">" ++ text
          ++ lit "</a>"
  | t => lit "<a href=" ++ quoted (html_escape src) ++ lit " title="
         ++ quoted (html_escape t) ++ lit ">" ++ text ++ lit "</a>"
  end.

(** A heading of level 1 to 6. *)
Definition html_header (text : str) (level : nat) (raw : option str) : str :=
  let digit := ascii_of_nat (48 + level) in
  lit "<h" ++ [digit] ++ lit ">" ++ text ++ lit "</h" ++ [digit] ++ lit ">"
  ++ [Py.newline].

Definition library : Library :=
  mkLibrary urlsplit_netloc html_escape html_link html_header.

(** A layout that hands the content back, and a renderer built on it. *)
Definition bare_page : AbstractConfluencePage :=
  mkPage (fun _ => []) (fun _ => []) (fun content _ _ => content) true.

Definition fresh_renderer : ConfluenceRenderer :=
  mkRenderer false [] bare_page None.


(** A post with front matter, and one without. *)
Definition post_with_front_matter : str :=
  line 0 (lit "---") ++ line 0 (lit "title: Release notes")
  ++ line 0 (lit "---") ++ line 0 (lit "# Changes") ++ line 0 []
  ++ line 0 (lit "---") ++ line 0 (lit "Nothing yet.").

Definition post_without_front_matter : str :=
  line 0 (lit "# Changes") ++ line 0 [] ++ line 0 (lit "Nothing yet.").

End Reference.

(** ** A small repository to run the scan on *)

Module ReferenceDocs.

(** The files of the repository: one post with front matter, one without. *)
Definition read_text (path : str) : option str :=
  if Py.str_eqb path (lit "/repo/content/guides/release-notes.md")
  then Some Reference.post_with_front_matter
  else if Py.str_eqb path (lit "/repo/content/guides/draft.md")
  then Some Reference.post_without_front_matter
  else None.

(** A loader that keeps the YAML text, and the lookup of [key: value] in
    its lines. *)
Definition yaml_load (raw_yaml : str) : option str := Some raw_yaml.

Definition getitem (front_matter key : str) : option str :=
  match find (Py.startswith (key ++ lit ": ")) (Py.readlines front_matter) with
  | Some entry =>
      Some (Py.strip Py.whitespace
              (Py.from (Z.of_nat (length key) + 2) entry))
  | None => None
  end.

(** What [os.walk] yields for the repository. *)
Definition walk : list (str * list str * list str) :=
  [ (lit "/repo/content", [lit "guides"; lit "images"], [lit "index.txt"]);
    (lit "/repo/content/guides", [],
     [lit "release-notes.md"; lit "draft.md"; lit "gone.md"; lit "todo.txt"]);
    (lit "/repo/content/images", [], [lit "logo.md"]) ].

Definition release_notes : MarkdownFile.t :=
  MarkdownFile.mk (lit "/repo/content/guides/release-notes.md")
                  (lit "release_notes.md_guides") (lit "Release notes").

Definition guides : Directory.t :=
  Directory.mk (lit "/repo/content/guides")
    [(lit "/repo/content/guides/release-notes.md", release_notes)].

Definition tree : MarkdownPages.t :=
  MarkdownPages.__scan_repository__ read_text yaml_load getitem walk.

(** A renderer after a heading and an image. *)
Definition after_heading : ConfluenceRenderer :=
  snd (header (lib := Reference.library) Reference.fresh_renderer
              (lit "Changes") 1 None).

Definition after_image : ConfluenceRenderer :=
  snd (image (lib := Reference.library) after_heading
             (lit "images/pic.png") None (lit "A picture")).

End ReferenceDocs.

(** * Facts about the string operations *)

Module PyFacts.
Import Py.

Lemma str_eqb_refl (a : str) : str_eqb a a = true.
Proof.
  induction a as [|x a IH]; simpl; [reflexivity|].
  now rewrite Ascii.eqb_refl.
Qed.

Lemma str_eqb_eq (a b : str) : str_eqb a b = true <-> a = b.
Proof.
  split; [|intros ->; apply str_eqb_refl].
  revert b; induction a as [|x a IH]; intros [|y b]; simpl; try easy.
  intros H; apply andb_true_iff in H as [Hx Ha].
  apply Ascii.eqb_eq in Hx; f_equal; auto.
Qed.

Lemma str_eqb_neq (a b : str) : str_eqb a b = false <-> a <> b.
Proof.
  rewrite <- str_eqb_eq. destruct (str_eqb a b); split; congruence.
Qed.

(** [startswith] is the prefix relation. *)
Lemma startswith_app (p t : str) : startswith p (p ++ t) = true.
Proof.
  induction p as [|x p IH]; simpl; [reflexivity|].
  now rewrite Ascii.eqb_refl.
Qed.

Lemma startswith_inv (p s : str) :
  startswith p s = true -> exists t, s = p ++ t.
Proof.
  revert s; induction p as [|x p IH]; intros s H; simpl in *.
  - now exists s.
  - destruct s as [|y s]; [discriminate|].
    apply andb_true_iff in H as [Hx Hp].
    apply Ascii.eqb_eq in Hx; subst y.
    destruct (IH _ Hp) as [t ->]. now exists t.
Qed.



(** [contains] is the substring relation. *)
Lemma contains_startswith (sub s : str) :
  startswith sub s = true -> contains sub s = true.
Proof. intros H; destruct s; simpl; now rewrite H. Qed.

Lemma contains_intro (sub u v : str) : contains sub (u ++ sub ++ v) = true.
Proof.
  induction u as [|c u IH].
  - cbn [app]. apply contains_startswith, startswith_app.
  - simpl in *. rewrite IH; apply orb_true_r.
Qed.

Lemma contains_inv (sub s : str) :
  contains sub s = true -> exists u v, s = u ++ sub ++ v.
Proof.
  induction s as [|c s IH]; simpl; intros H.
  - rewrite orb_false_r in H. apply startswith_inv in H as [t Ht].
    now exists [], t.
  - apply orb_true_iff in H as [H|H].
    + apply startswith_inv in H as [t Ht]. now exists [], t.
    + destruct (IH H) as (u & v & ->). now exists (c :: u), v.
Qed.

(** A string that lacks a part of [pat] lacks [pat]. *)
Lemma contains_trans (sub pat s : str) :
  contains sub pat = true -> contains sub s = false ->
  contains pat s = false.
Proof.
  intros Hsub Hs. destruct (contains pat s) eqn:E; [|reflexivity].
  apply contains_inv in Hsub as (u & v & ->).
  apply contains_inv in E as (u' & v' & ->).
  rewrite <- Hs.
  replace (u' ++ (u ++ sub ++ v) ++ v') with ((u' ++ u) ++ sub ++ (v ++ v'))
    by now rewrite <- !app_assoc.
  symmetry; apply contains_intro.
Qed.

Lemma contains_cons_false (sub : str) (c : ascii) (s : str) :
  contains sub (c :: s) = false ->
  startswith sub (c :: s) = false /\ contains sub s = false.
Proof.
  simpl; intros H; apply orb_false_iff in H; exact H.
Qed.

Lemma first_is_app (b : ascii) (x y : str) :
  x <> [] -> first_is b (x ++ y) = first_is b x.
Proof. destruct x; [congruence|reflexivity]. Qed.

(** Occurrences of a two-character string. *)
Lemma contains2_cons (a b c : ascii) (s : str) :
  contains [a; b] (c :: s) = (Ascii.eqb a c && first_is b s) || contains [a; b] s.
Proof.
  simpl. destruct s as [|y s]; simpl; [now rewrite andb_false_r|].
  now rewrite andb_true_r.
Qed.

(** Joining two strings that lack [a; b] makes no occurrence of it, unless
    the first ends in [a] and the second starts with [b]. *)
Lemma contains2_app (a b : ascii) (x y : str) :
  contains [a; b] x = false -> contains [a; b] y = false ->
  last_is a x = false \/ first_is b y = false ->
  contains [a; b] (x ++ y) = false.
Proof.
  intros Hx Hy Hxy. induction x as [|c x IH]; [exact Hy|].
  rewrite <- app_comm_cons, contains2_cons.
  rewrite contains2_cons in Hx. apply orb_false_iff in Hx as [Hc Hx].
  destruct x as [|c' x].
  - simpl in *. rewrite Hy, orb_false_r.
    destruct Hxy as [-> | ->]; [reflexivity | apply andb_false_r].
  - rewrite IH; [|assumption|exact Hxy].
    rewrite orb_false_r. exact Hc.
Qed.

(** *** [replace] *)

Section Replace.

Variables old new : str.
Hypothesis old_nonempty : old <> [].

(** The characters of a match are passed over. *)
Lemma replace_from_skip (u t : str) :
  replace_from old new (length u) (u ++ t) = replace_from old new 0 t.
Proof. induction u as [|c u IH]; simpl; [reflexivity | exact IH]. Qed.

Lemma replace_nil : replace old new [] = [].
Proof. unfold replace. destruct old; [congruence | reflexivity]. Qed.

(** A match at the head is replaced, and the scan resumes after it. *)
Lemma replace_match (t : str) :
  replace old new (old ++ t) = new ++ replace old new t.
Proof.
  unfold replace. destruct old as [|o old'] eqn:E; [congruence|].
  rewrite <- E. assert (Hs : startswith old (old ++ t) = true)
    by apply startswith_app.
  rewrite E in *. cbn [app replace_from]. cbn [app] in Hs. rewrite Hs.
  f_equal. replace (length (o :: old') - 1) with (length old')
    by (simpl; lia).
  pose proof (replace_from_skip old' t) as K. rewrite E in K. exact K.
Qed.

(** Where nothing matches, the character is kept. *)
Lemma replace_nomatch (c : ascii) (s : str) :
  startswith old (c :: s) = false ->
  replace old new (c :: s) = c :: replace old new s.
Proof.
  unfold replace. destruct old as [|o old'] eqn:E; [congruence|].
  intros H. cbn [replace_from]. now rewrite H.
Qed.

(** [replace] by cases: the end of the string, a match, no match. *)
Lemma replace_cases (P : str -> str -> Prop) :
  P [] [] ->
  (forall t, P t (replace old new t) ->
             P (old ++ t) (new ++ replace old new t)) ->
  (forall c s, startswith old (c :: s) = false ->
               P s (replace old new s) ->
               P (c :: s) (c :: replace old new s)) ->
  forall s, P s (replace old new s).
Proof.
  intros Hnil Hmatch Hno s.
  remember (length s) as n eqn:Hn. revert s Hn.
  induction n as [n IH] using lt_wf_ind. intros s Hn.
  destruct s as [|c s]; [rewrite replace_nil; exact Hnil|].
  destruct (startswith old (c :: s)) eqn:E.
  - apply startswith_inv in E as [t Ht]. rewrite Ht, replace_match.
    apply Hmatch. apply (IH (length t)); [|reflexivity].
    subst n. rewrite Ht, length_app.
    destruct old; [congruence | simpl; lia].
  - rewrite (replace_nomatch _ _ E). apply Hno; [exact E|].
    apply (IH (length s)); [subst n; simpl; lia | reflexivity].
Qed.

(** A string without [old] is left as it is. *)
Lemma replace_absent (s : str) :
  contains old s = false -> replace old new s = s.
Proof.
  induction s as [|c s IH]; intros H; [apply replace_nil|].
  apply contains_cons_false in H as [H1 H2].
  rewrite (replace_nomatch _ _ H1), (IH H2). reflexivity.
Qed.

End Replace.


(** A replacement that neither holds [a; b], nor ends in [a], nor starts
    with [b] makes no new occurrence of [a; b]. *)
Section TwoCharacters.

Variables (a b : ascii) (new : str).
Hypothesis new_nonempty : new <> [].
Hypothesis new_clean : contains [a; b] new = false.
Hypothesis new_first : first_is b new = false.
Hypothesis new_last : last_is a new = false.

Let keeps_head (s r : str) : Prop :=
  first_is b r = true -> first_is b s = true.

Lemma replace_keeps_absent (old s : str) :
  old <> [] -> contains [a; b] s = false ->
  contains [a; b] (replace old new s) = false.
Proof.
  intros Hold.
  enough (contains [a; b] s = false ->
          contains [a; b] (replace old new s) = false
          /\ keeps_head s (replace old new s)) by tauto.
  apply (replace_cases old new Hold
    (fun s r => contains [a; b] s = false ->
                contains [a; b] r = false /\ keeps_head s r)).
  - intros _. split; [reflexivity | intros H; exact H].
  - intros t IH H. split.
    + apply contains2_app; [exact new_clean| |left; exact new_last].
      apply IH. destruct (contains [a; b] t) eqn:E; [|reflexivity].
      apply contains_inv in E as (u & v & ->). rewrite <- H.
      rewrite app_assoc. symmetry. apply contains_intro.
    + unfold keeps_head. rewrite first_is_app, new_first by assumption.
      discriminate.
  - intros c s0 _ IH H. rewrite contains2_cons in H.
    apply orb_false_iff in H as [H1 H2]. destruct (IH H2) as [IH1 IH2].
    split; [|intros E; exact E].
    rewrite contains2_cons, IH1, orb_false_r.
    destruct (Ascii.eqb a c); [|reflexivity]. cbn [andb] in *.
    destruct (first_is b (replace old new s0)) eqn:E; [|reflexivity].
    rewrite <- H1. symmetry. apply IH2, E.
Qed.

(** Replacing [a; b] itself leaves none. *)
Lemma replace_removes_all (s : str) :
  contains [a; b] (replace [a; b] new s) = false.
Proof.
  enough (contains [a; b] (replace [a; b] new s) = false
          /\ keeps_head s (replace [a; b] new s)) by tauto.
  apply (replace_cases [a; b] new ltac:(discriminate)
    (fun s r => contains [a; b] r = false /\ keeps_head s r)).
  - split; [reflexivity | intros H; exact H].
  - intros t [IH _]. split.
    + apply contains2_app; [exact new_clean|exact IH|left; exact new_last].
    + unfold keeps_head. rewrite first_is_app, new_first by assumption.
      discriminate.
  - intros c s0 Hno [IH1 IH2]. split; [|intros E; exact E].
    rewrite contains2_cons, IH1, orb_false_r.
    destruct (Ascii.eqb a c) eqn:Ec; [|reflexivity]. cbn [andb].
    destruct (first_is b (replace [a; b] new s0)) eqn:E; [|reflexivity].
    apply IH2 in E. rewrite <- Hno. symmetry.
    destruct s0 as [|y s0]; [discriminate|]. simpl in *.
    now rewrite Ec, E.
Qed.

End TwoCharacters.



End PyFacts.


(** * Facts about [os.path] *)

Module OsPathFacts.
Import Py PyFacts OsPath.

(** [rfind] finds the last occurrence. *)
Lemma rfind_from_absent (c : ascii) (s : str) (i acc : Z) :
  ~ In c s -> rfind_from c s i acc = acc.
Proof.
  revert i acc; induction s as [|x s IH]; intros i acc H; [reflexivity|].
  cbn [rfind_from]. destruct (Ascii.eqb x c) eqn:E.
  - apply Ascii.eqb_eq in E. subst. exfalso. apply H. now left.
  - apply IH. intros Hin. apply H. now right.
Qed.

Lemma rfind_from_last (c : ascii) (u v : str) (i acc : Z) :
  ~ In c v ->
  rfind_from c (u ++ c :: v) i acc = (i + Z.of_nat (length u))%Z.
Proof.
  intros Hv. revert i acc; induction u as [|x u IH]; intros i acc.
  - cbn [app rfind_from length]. rewrite Ascii.eqb_refl.
    rewrite rfind_from_absent by assumption. lia.
  - cbn [app rfind_from length]. rewrite IH. lia.
Qed.

Lemma rfind_absent (c : ascii) (s : str) : ~ In c s -> rfind c s = (-1)%Z.
Proof. apply rfind_from_absent. Qed.

Lemma rfind_last (c : ascii) (u v : str) :
  ~ In c v -> rfind c (u ++ c :: v) = Z.of_nat (length u).
Proof. intros H. unfold rfind. now rewrite rfind_from_last. Qed.

(** A string that holds [c] splits at its last [c]. *)
Lemma split_last (c : ascii) (s : str) :
  In c s -> exists u v, s = u ++ c :: v /\ ~ In c v.
Proof.
  induction s as [|x s IH]; intros H; [destruct H|].
  destruct (in_dec ascii_dec c s) as [Hin | Hout].
  - destruct (IH Hin) as (u & v & -> & Hv). now exists (x :: u), v.
  - destruct H as [-> | H]; [|contradiction]. now exists [], s.
Qed.

Lemma upto_last (u v : str) (c : ascii) :
  upto (Z.of_nat (length u) + 1) (u ++ c :: v) = u ++ [c].
Proof.
  unfold upto.
  replace (Z.to_nat (Z.of_nat (length u) + 1)) with (length (u ++ [c]))
    by (rewrite length_app; simpl; lia).
  change (u ++ c :: v) with (u ++ [c] ++ v).
  rewrite app_assoc, firstn_app, firstn_all, Nat.sub_diag.
  cbn [firstn]. apply app_nil_r.
Qed.

(** [lstrip] and [rstrip] of one character. *)
Lemma lstrip_repeat (c : ascii) (k : nat) (w : str) :
  lstrip [c] (repeat c k ++ w) = lstrip [c] w.
Proof.
  induction k as [|k IH]; [reflexivity|].
  cbn [repeat app lstrip mem existsb]. now rewrite Ascii.eqb_refl.
Qed.

Lemma lstrip_split (c : ascii) (s : str) :
  exists k, s = repeat c k ++ lstrip [c] s.
Proof.
  induction s as [|x s [k IH]]; [now exists 0|].
  cbn [lstrip mem existsb]. destruct (Ascii.eqb x c) eqn:E.
  - apply Ascii.eqb_eq in E. subst x. exists (S k). cbn [orb repeat app].
    now rewrite <- IH.
  - now exists 0.
Qed.

Lemma rev_repeat_char (c : ascii) (k : nat) : rev (repeat c k) = repeat c k.
Proof.
  induction k as [|k IH]; [reflexivity|].
  cbn [repeat rev]. rewrite IH. symmetry. apply repeat_cons.
Qed.

Lemma rstrip_split (c : ascii) (s : str) :
  exists k, s = rstrip [c] s ++ repeat c k.
Proof.
  destruct (lstrip_split c (rev s)) as [k E]. exists k. unfold rstrip.
  rewrite <- (rev_involutive s) at 1. rewrite E at 1.
  now rewrite rev_app_distr, rev_repeat_char.
Qed.

Lemma rstrip_repeat (c : ascii) (w : str) (k : nat) :
  rstrip [c] (w ++ repeat c k) = rstrip [c] w.
Proof.
  unfold rstrip. now rewrite rev_app_distr, rev_repeat_char, lstrip_repeat.
Qed.

(** [dirname] of a path with a separator: what stands before the last
    separator, trailing separators dropped unless there is nothing else. *)
Lemma dirname_no_sep (p : str) : ~ In sep p -> dirname p = [].
Proof.
  intros H. unfold dirname. rewrite rfind_absent by assumption. reflexivity.
Qed.

Lemma dirname_split (u v : str) :
  ~ In sep v ->
  dirname (u ++ sep :: v)
  = if str_eqb (u ++ [sep]) (repeat sep (length (u ++ [sep])))
    then u ++ [sep] else rstrip [sep] (u ++ [sep]).
Proof.
  intros H. unfold dirname. rewrite rfind_last, upto_last by assumption.
  destruct (u ++ [sep]) eqn:E; [now destruct u|].
  rewrite <- E. now destruct (str_eqb _ _).
Qed.

(** The directory part is [images] for [images/name] alone, the separator
    possibly repeated. *)
Lemma dirname_images (link : str) :
  dirname link = lit "images" <->
  exists k name,
    link = lit "images" ++ repeat sep (S k) ++ name /\ ~ In sep name.
Proof.
  split.
  - intros H. destruct (in_dec ascii_dec sep link) as [Hin | Hout].
    2: { rewrite dirname_no_sep in H by assumption. discriminate. }
    destruct (split_last _ _ Hin) as (u & v & -> & Hv).
    rewrite dirname_split in H by assumption.
    destruct (str_eqb _ _) eqn:E.
    + apply str_eqb_eq in E. rewrite H in E. vm_compute in E.
      discriminate.
    + destruct (rstrip_split sep (u ++ [sep])) as [k Hk]. rewrite H in Hk.
      destruct k as [|k].
      * rewrite app_nil_r in Hk.
        apply (f_equal (@rev ascii)) in Hk. rewrite rev_app_distr in Hk.
        discriminate.
      * exists k, v. split; [|assumption].
        change (u ++ sep :: v) with (u ++ [sep] ++ v).
        now rewrite app_assoc, Hk, <- app_assoc.
  - intros (k & name & -> & Hname).
    replace (lit "images" ++ repeat sep (S k) ++ name)
      with ((lit "images" ++ repeat sep k) ++ sep :: name)
      by (cbn [repeat]; rewrite repeat_cons, <- !app_assoc; reflexivity).
    rewrite dirname_split by assumption.
    destruct (str_eqb _ _) eqn:E.
    + apply str_eqb_eq in E. rewrite !length_app in E. simpl in E.
      discriminate.
    + rewrite <- app_assoc, <- repeat_cons.
      change (sep :: repeat sep k) with (repeat sep (S k)).
      rewrite rstrip_repeat. reflexivity.
Qed.

End OsPathFacts.
(** * Facts about the alert macros *)

Module AlertFacts.
Import Py PyFacts.

Lemma convert_as_rules (html : str) :
  convert_info_macros html = fold_left apply_rule rules html.
Proof.
  cbv beta delta [convert_info_macros rules block_rules inline_rules
                  bare_rules app fold_left apply_rule fst snd] iota zeta.
  reflexivity.
Qed.

(** The eight facts behind [has_delimiter s = false]. *)
Lemma no_delimiter_inv (s : str) :
  has_delimiter s = false ->
  Forall (fun d => contains d s = false) delimiters.
Proof.
  unfold has_delimiter. induction delimiters as [|d ds IH]; simpl; intros H.
  - constructor.
  - apply orb_false_iff in H as [H1 H2]. constructor; auto.
Qed.

Lemma no_delimiter_intro (s : str) :
  Forall (fun d => contains d s = false) delimiters ->
  has_delimiter s = false.
Proof.
  unfold has_delimiter. induction 1 as [|d ds H _ IH]; simpl.
  - reflexivity.
  - now rewrite H, IH.
Qed.

(** Every pattern of [rules] is non-empty and holds a raw delimiter. *)
Lemma rules_patterns (rule : str * str) :
  In rule rules ->
  fst rule <> [] /\ exists d, In d delimiters /\ contains d (fst rule) = true.
Proof.
  intros H. split.
  - cbv [rules block_rules inline_rules bare_rules app] in H.
    repeat (destruct H as [<- | H]; [discriminate|]). destruct H.
  - assert (E : existsb (fun d => contains d (fst rule)) delimiters = true).
    { cbv [rules block_rules inline_rules bare_rules app] in H.
      repeat (destruct H as [<- | H]; [vm_compute; reflexivity|]).
      destruct H. }
    apply existsb_exists in E. exact E.
Qed.

(** A replacement of [rules] leaves text without raw delimiters alone. *)
Lemma apply_rule_absent (s : str) (rule : str * str) :
  has_delimiter s = false -> In rule rules -> apply_rule s rule = s.
Proof.
  intros Hs Hin. destruct (rules_patterns _ Hin) as (Hne & d & Hd & Hsub).
  apply replace_absent; [exact Hne|].
  apply (contains_trans d); [exact Hsub|].
  apply no_delimiter_inv in Hs. rewrite Forall_forall in Hs. now apply Hs.
Qed.

Lemma fold_rules_absent (rs : list (str * str)) (s : str) :
  incl rs rules -> has_delimiter s = false -> fold_left apply_rule rs s = s.
Proof.
  induction rs as [|r rs IH]; intros Hin Hs; [reflexivity|].
  cbn [fold_left]. rewrite apply_rule_absent; [|exact Hs|apply Hin; now left].
  apply IH; [|exact Hs]. intros x Hx. apply Hin. now right.
Qed.

(** Text without raw delimiters is a fixed point. *)
Lemma convert_absent (s : str) :
  has_delimiter s = false -> convert_info_macros s = s.
Proof.
  intros Hs. rewrite convert_as_rules.
  apply fold_rules_absent; [apply incl_refl | exact Hs].
Qed.


(** The tags hold no raw delimiter, start with [<] and end with [>]:
    wrapping clean text in them keeps it clean. *)
Ltac tag_facts :=
  first [ vm_compute; reflexivity | vm_compute; discriminate ].


(** After the bare forms are replaced, no raw delimiter is left. *)
Lemma bare_rules_clean (s : str) :
  has_delimiter (fold_left apply_rule bare_rules s) = false.
Proof.
  apply no_delimiter_intro. unfold delimiters. cbn [map].
  cbv beta delta [bare_rules fold_left apply_rule fst snd lit
                  list_ascii_of_string] iota.
  repeat constructor;
    repeat first
      [ apply replace_removes_all; tag_facts
      | apply replace_keeps_absent; [tag_facts ..|] ].
Qed.

Lemma convert_clean (html : str) :
  has_delimiter (convert_info_macros html) = false.
Proof.
  rewrite convert_as_rules. unfold rules.
  rewrite app_assoc, fold_left_app. apply bare_rules_clean.
Qed.







End AlertFacts.

(** * The alert macro translator *)

Section AlertMacroTranslator.
Import Py PyFacts AlertFacts.



(** C4.  [convert_info_macros] is idempotent: its output holds no raw
    delimiter, so a second application changes nothing. *)
Theorem convert_info_macros_idempotent (html : str) :
  has_delimiter (convert_info_macros html) = false /\
  convert_info_macros (convert_info_macros html) = convert_info_macros html.
Proof.
  split; [apply convert_clean|].
  apply convert_absent, convert_clean.
Qed.

End AlertMacroTranslator.

(** * The markup of the templates, character by character *)

Module MarkupFacts.

Lemma heading_link_text (heading text : str) :
  heading_link heading text
  = lit "<ac:link ac:anchor=" ++ [dquote] ++ heading ++ [dquote] ++ lit ">"
    ++ [Py.newline]
    ++ lit "    <ac:plain-text-link-body>" ++ [Py.newline]
    ++ lit "        <![CDATA[" ++ text ++ lit "]]>" ++ [Py.newline]
    ++ lit "    </ac:plain-text-link-body>" ++ [Py.newline]
    ++ lit "</ac:link>" ++ [Py.newline].
Proof.
  unfold heading_link, plain_text_link_body, line, quoted.
  repeat rewrite <- app_assoc. reflexivity.
Qed.


Lemma attachment_link_text (file text : str) :
  attachment_link file text
  = lit "<ac:link>" ++ [Py.newline]
    ++ lit "    <ri:attachment ri:filename=" ++ [dquote] ++ file ++ [dquote]
    ++ lit " />" ++ [Py.newline]
    ++ lit "    <ac:plain-text-link-body>" ++ [Py.newline]
    ++ lit "        <![CDATA[" ++ text ++ lit "]]>" ++ [Py.newline]
    ++ lit "    </ac:plain-text-link-body>" ++ [Py.newline]
    ++ lit "</ac:link>" ++ [Py.newline].
Proof.
  unfold attachment_link, plain_text_link_body, line, quoted.
  repeat rewrite <- app_assoc. reflexivity.
Qed.

Lemma attachment_image_text (file caption : str) :
  tag_template (lit "<ri:attachment ri:filename=" ++ quoted file ++ lit " />")
               caption
  = lit "<ac:image ac:align=" ++ [dquote] ++ lit "center" ++ [dquote]
    ++ lit "><ri:attachment ri:filename=" ++ [dquote] ++ file ++ [dquote]
    ++ lit " /> <div style=" ++ [dquote] ++ lit "text-align: center;"
    ++ [dquote] ++ lit "><em>" ++ caption ++ lit "</em></div></ac:image>".
Proof.
  unfold tag_template, quoted.
  repeat rewrite <- app_assoc. reflexivity.
Qed.

End MarkupFacts.

(** * The renderer *)

Section RendererClaims.
Import Py PyFacts.

Context {lib : Library}.

Lemma external_src (src : str) :
  netloc src <> [] -> negb (str_eqb (netloc src) []) = true.
Proof. intros H. apply str_eqb_neq in H. now rewrite H. Qed.

Lemma internal_src (src : str) :
  netloc src = [] -> negb (str_eqb (netloc src) []) = false.
Proof. intros ->. reflexivity. Qed.

(** C6.  For a [src] with a network location, neither [image] nor [link]
    appends to the attachments, and [link] answers the plain hyperlink
    whatever [resolve_link] would say: it is not consulted. *)
Theorem external_src_records_nothing (self : ConfluenceRenderer)
    (src : str) (title : option str) (alt_text text : str) :
  netloc src <> [] ->
  attachments (snd (image self src title alt_text)) = attachments self /\
  attachments (snd (link self src title text)) = attachments self /\
  (forall resolve : str -> Link,
      link_via resolve self src title text
      = (super_link src title text, self)).
Proof.
  intros H. apply external_src in H.
  unfold link, link_via, image. rewrite H. cbn [negb snd]. auto.
Qed.


(** C8.  A heading link: the markup is an [<ac:link>] whose [ac:anchor]
    is the link's title when it has a non-empty one and empty otherwise,
    with the text as CDATA body; the target [src] has no part in the
    markup. *)
Theorem heading_link_anchor (self : ConfluenceRenderer)
    (src : str) (title : option str) (text : str) :
  netloc src = [] ->
  resolve_link src = HEADING ->
  link self src title text = (heading_link (or_else title []) text, self)
  /\ (forall t, title = Some t -> or_else title [] = t)
  /\ (title = None -> or_else title [] = [])
  /\ (forall src', netloc src' = [] -> resolve_link src' = HEADING ->
        fst (link self src' title text) = fst (link self src title text))
  /\ fst (link self src title text)
     = lit "<ac:link ac:anchor=" ++ [dquote] ++ or_else title [] ++ [dquote]
       ++ lit ">" ++ [newline]
       ++ lit "    <ac:plain-text-link-body>" ++ [newline]
       ++ lit "        <![CDATA[" ++ text ++ lit "]]>" ++ [newline]
       ++ lit "    </ac:plain-text-link-body>" ++ [newline]
       ++ lit "</ac:link>" ++ [newline].
Proof.
  intros Hsrc Hkind.
  assert (E : forall s, netloc s = [] -> resolve_link s = HEADING ->
                link self s title text
                = (heading_link (or_else title []) text, self)).
  { intros s Hs Hk. unfold link, link_via.
    now rewrite (internal_src _ Hs), Hk. }
  split; [now apply E|]. split; [|split; [|split]].
  - intros t ->. destruct t; reflexivity.
  - intros ->. reflexivity.
  - intros src' Hs Hk. now rewrite (E _ Hs Hk), (E _ Hsrc Hkind).
  - rewrite (E _ Hsrc Hkind). cbn [fst].
    apply MarkupFacts.heading_link_text.
Qed.

(** C9.  The constructor raises [InvalidArgumentException] for a page
    layout that is falsy or no [AbstractConfluencePage]; no renderer exists
    then.  With a page layout that is one it answers a fresh renderer. *)
Theorem init_requires_page_layout (page_layout get_title_func : PyValue) :
  (truth page_layout = false \/ as_page page_layout = None ->
   __init__ page_layout get_title_func
   = inl (mkInvalidArgument (lit "page_layout") page_layout (lit "ABCMeta")))
  /\ (forall p, page_layout = PyPage p -> page_bool p = true ->
      __init__ page_layout get_title_func
      = inr (mkRenderer false [] p (as_callable get_title_func))).
Proof.
  split.
  - intros [H | H]; unfold __init__.
    + destruct (as_page page_layout); [now rewrite H | reflexivity].
    + now rewrite H.
  - intros p -> Hp. unfold __init__. cbn [as_page truth]. now rewrite Hp.
Qed.


End RendererClaims.

(** * The link resolver *)

Section LinkResolver.
Import Py PyFacts OsPath OsPathFacts.

(** C1, as amended.  [resolve_link] answers [HEADING] for a link that
    starts with [#]; else [ATTACHMENT] when the directory part of the link
    is [images] itself, that is for [images/name] with a [name] free of
    separators (the separator possibly repeated); else
    [MD_PAGE_REFERENCE] when the extension is [.md]; else [UNKNOWN]. *)
Theorem resolve_link_rules (link : str) :
  (resolve_link link = HEADING <-> startswith (lit "#") link = true)
  /\ (resolve_link link = ATTACHMENT <->
      exists k name,
        link = lit "images" ++ repeat sep (S k) ++ name /\ ~ In sep name)
  /\ (resolve_link link = MD_PAGE_REFERENCE <->
      startswith (lit "#") link = false
      /\ dirname link <> lit "images"
      /\ snd (splitext link) = lit ".md")
  /\ (resolve_link link = UNKNOWN <->
      startswith (lit "#") link = false
      /\ dirname link <> lit "images"
      /\ snd (splitext link) <> lit ".md")
  /\ resolve_link (lit "#section") = HEADING
  /\ resolve_link (lit "images/pic.png") = ATTACHMENT
  /\ resolve_link (lit "other/doc.md") = MD_PAGE_REFERENCE
  /\ resolve_link (lit "other/doc.txt") = UNKNOWN.
Proof.
  assert (Hhash : forall k name,
             startswith (lit "#") (lit "images" ++ repeat sep (S k) ++ name)
             = false) by reflexivity.
  rewrite <- dirname_images.
  unfold resolve_link.
  destruct (startswith (lit "#") link) eqn:E1.
  - repeat split; try easy.
    intros H. apply dirname_images in H as (k & name & -> & _).
    now rewrite Hhash in E1.
  - destruct (str_eqb (dirname link) (lit "images")) eqn:E2.
    + apply str_eqb_eq in E2. repeat split; try easy; tauto.
    + apply str_eqb_neq in E2. cbv zeta.
      destruct (str_eqb (snd (splitext link)) (lit ".md")) eqn:E3.
      * apply str_eqb_eq in E3. repeat split; try easy; tauto.
      * apply str_eqb_neq in E3. repeat split; try easy; tauto.
Qed.

(** Where C1 fails as it is worded: a link into an [images] directory
    further down is no attachment for the code. *)
Lemma resolve_link_nested_images :
  resolve_link (lit "docs/images/pic.png") = UNKNOWN
  /\ basename (dirname (lit "docs/images/pic.png")) = lit "images"
  /\ claimed_resolve_link (lit "docs/images/pic.png") = ATTACHMENT.
Proof. repeat split; vm_compute; reflexivity. Qed.

End LinkResolver.

(** * Images *)

Section ImageClaims.
Import Py PyFacts OsPath OsPathFacts.

Context {lib : Library}.

(** C2, as amended.  An image without a network location appends one
    path: [src] with its leading separators trimmed and then, when what is
    left starts with [images], without these six characters.  For a path
    under the assets directory this is what follows [images], the
    separator included. *)
Theorem image_records_attachment (self : ConfluenceRenderer)
    (src : str) (title : option str) (alt_text : str) :
  netloc src = [] ->
  (forall k rest,
      src = repeat sep k ++ lit "images" ++ rest ->
      attachments (snd (image self src title alt_text))
      = attachments self ++ [rest])
  /\ (startswith (lit "images") (lstrip (lit "/") src) = false ->
      attachments (snd (image self src title alt_text))
      = attachments self ++ [lstrip (lit "/") src]).
Proof.
  intros Hsrc. unfold image. rewrite (internal_src _ Hsrc).
  cbn [negb snd append_attachment attachments]. split.
  - intros k rest ->. change (lit "/") with [sep].
    rewrite lstrip_repeat.
    change (lstrip [sep] (lit "images" ++ rest)) with (lit "images" ++ rest).
    now rewrite startswith_app.
  - now intros ->.
Qed.

End ImageClaims.

(** * Front matter *)

Module ParseFacts.
Import Py PyFacts.

Lemma readlines_nonempty (s : str) :
  Forall (fun l => l <> []) (readlines s).
Proof.
  induction s as [|c s IH]; cbn [readlines]; [constructor|].
  destruct (Ascii.eqb c newline); [now constructor|].
  destruct (readlines s) as [|l ls]; [now repeat constructor|].
  inversion IH; subst. now constructor.
Qed.

Lemma concat_readlines (s : str) : concat (readlines s) = s.
Proof.
  induction s as [|c s IH]; cbn [readlines]; [reflexivity|].
  destruct (Ascii.eqb c newline); [cbn; now rewrite IH|].
  destruct (readlines s) as [|l ls]; cbn in *; now rewrite <- IH.
Qed.

(** Past the front matter every line goes to the Markdown text. *)
Lemma parse_in_body (lines : list str) (raw md : str) :
  fold_left parse_line lines (mkParseState raw md false)
  = mkParseState raw (md ++ concat lines) false.
Proof.
  revert md; induction lines as [|l lines IH]; intros md; cbn [fold_left concat].
  - now rewrite app_nil_r.
  - unfold parse_line at 2. cbn [in_yaml andb raw_yaml markdown].
    destruct (is_boundary l); now rewrite IH, app_assoc.
Qed.

(** In the front matter a line that is no boundary goes to the YAML text. *)
Lemma parse_in_yaml (lines : list str) (raw md : str) :
  forallb (fun l => negb (is_boundary l)) lines = true ->
  fold_left parse_line lines (mkParseState raw md true)
  = mkParseState (raw ++ concat lines) md true.
Proof.
  revert raw; induction lines as [|l lines IH]; intros raw H;
    cbn [fold_left concat].
  - now rewrite app_nil_r.
  - cbn [forallb] in H. apply andb_true_iff in H as [Hl H].
    apply negb_true_iff in Hl.
    unfold parse_line at 2. rewrite Hl. cbn [in_yaml raw_yaml markdown].
    now rewrite IH, app_assoc.
Qed.

(** The first line goes to the YAML text, a boundary or not. *)
Lemma parse_first_line (first : str) :
  parse_line (mkParseState [] [] true) first = mkParseState first [] true.
Proof.
  unfold parse_line. cbn [in_yaml raw_yaml markdown str_eqb negb andb app].
  now destruct (is_boundary first).
Qed.

(** A boundary after some YAML text ends the front matter. *)
Lemma parse_closing_line (raw md line : str) :
  raw <> [] -> is_boundary line = true ->
  parse_line (mkParseState raw md true) line = mkParseState raw md false.
Proof.
  intros Hraw Hl. unfold parse_line. rewrite Hl.
  cbn [in_yaml raw_yaml markdown]. apply str_eqb_neq in Hraw.
  now rewrite Hraw.
Qed.

End ParseFacts.

Section ParseClaims.
Import Py PyFacts ParseFacts.

Context {FrontMatter : Type} (yaml_load : str -> option FrontMatter).

(** C5, as amended.  [parse] starts in the front matter.  The first line
    of a post goes to the YAML text, a boundary or not; the next line that
    is a boundary closes the front matter, and the lines after it, put
    together and stripped, are the Markdown body.  A post without such a
    closing line has an empty body: all of its text is taken as YAML. *)
Theorem parse_front_matter_then_body (post : str) :
  (forall first meta closing body,
      readlines post = first :: meta ++ closing :: body ->
      forallb (fun l => negb (is_boundary l)) meta = true ->
      is_boundary closing = true ->
      parse yaml_load post
      = option_map (fun fm => (fm, strip whitespace (concat body)))
                   (yaml_load (first ++ concat meta)))
  /\ (forallb (fun l => negb (is_boundary l)) (tl (readlines post)) = true ->
      parse yaml_load post
      = option_map (fun fm => (fm, [])) (yaml_load post)).
Proof.
  pose proof (readlines_nonempty post) as Hne.
  pose proof (concat_readlines post) as Hcat.
  unfold parse, parse_lines. split.
  - intros first meta closing body E Hmeta Hclosing.
    rewrite E in *. inversion Hne as [|? ? Hfirst _]; subst.
    cbn [fold_left]. rewrite parse_first_line, fold_left_app.
    rewrite parse_in_yaml by assumption. cbn [fold_left].
    rewrite parse_closing_line, parse_in_body;
      [|destruct first; [congruence | discriminate] | assumption].
    cbn [raw_yaml markdown app].
    now destruct (yaml_load (first ++ concat meta)).
  - intros H. destruct (readlines post) as [|first rest].
    + cbn in Hcat. subst post. cbn. now destruct (yaml_load []).
    + cbn [tl] in H. cbn [fold_left].
      rewrite parse_first_line, parse_in_yaml by assumption.
      cbn [raw_yaml markdown]. cbn [concat] in Hcat. rewrite Hcat.
      now destruct (yaml_load post).
Qed.

End ParseClaims.

(** * The claims at work

    Each statement below runs a theorem above on the library functions of
    [Reference]. *)

Section Examples.
Import Py OsPath Reference.

Lemma image_records_attachment_witness :
  attachments (snd (image (lib := library) fresh_renderer
                          (lit "/images/diagrams/flow.png") None (lit "Flow")))
  = [lit "/diagrams/flow.png"].
Proof.
  apply (proj1 (image_records_attachment (lib := library) fresh_renderer
                  (lit "/images/diagrams/flow.png") None (lit "Flow")
                  ltac:(vm_compute; reflexivity))
               1 (lit "/diagrams/flow.png")).
  vm_compute; reflexivity.
Defined.

(** Where C2 fails as it is worded: the path recorded for
    [images/pic.png] starts with a separator. *)
Lemma image_attachment_keeps_separator :
  netloc (Library := library) (lit "images/pic.png") = []
  /\ attachments (snd (image (lib := library) fresh_renderer
                             (lit "images/pic.png") None (lit "A picture")))
     = [lit "/pic.png"]
  /\ claimed_image_attachment (lit "images/pic.png") = lit "pic.png"
  /\ startswith (lit "/") (lit "/pic.png") = true.
Proof. repeat split; vm_compute; reflexivity. Qed.

Lemma parse_front_matter_then_body_witness :
  parse Some post_with_front_matter
  = Some (line 0 (lit "---") ++ line 0 (lit "title: Release notes"),
          line 0 (lit "# Changes") ++ line 0 [] ++ line 0 (lit "---")
          ++ lit "Nothing yet.").
Proof.
  apply (proj1 (parse_front_matter_then_body Some post_with_front_matter)
               (line 0 (lit "---"))
               [line 0 (lit "title: Release notes")]
               (line 0 (lit "---"))
               [line 0 (lit "# Changes"); line 0 []; line 0 (lit "---");
                line 0 (lit "Nothing yet.")]);
    vm_compute; reflexivity.
Defined.

(** Where C5 fails as it is worded: a post with no front matter, and no
    boundary line at all, comes back with an empty Markdown body. *)
Lemma parse_without_front_matter :
  existsb is_boundary (readlines post_without_front_matter) = false
  /\ parse Some post_without_front_matter
     = Some (post_without_front_matter, [])
  /\ post_without_front_matter <> [].
Proof. repeat split; vm_compute; [reflexivity .. | discriminate]. Qed.

Lemma external_src_records_nothing_witness :
  attachments (snd (image (lib := library) fresh_renderer
                          (lit "https://example.com/logo.png") None
                          (lit "Logo"))) = []
  /\ link (lib := library) fresh_renderer (lit "https://example.com/images/a.md")
          None (lit "a")
     = (super_link (Library := library)
                   (lit "https://example.com/images/a.md") None (lit "a"),
        fresh_renderer).
Proof.
  split.
  - apply (external_src_records_nothing (lib := library) fresh_renderer
             (lit "https://example.com/logo.png") None (lit "Logo") []).
    vm_compute; discriminate.
  - apply (external_src_records_nothing (lib := library) fresh_renderer
             (lit "https://example.com/images/a.md") None [] (lit "a")).
    vm_compute; discriminate.
Defined.


Lemma heading_link_anchor_witness :
  fst (link (lib := library) fresh_renderer (lit "#install")
            (Some (lit "Setup")) (lit "how to install"))
  = lit "<ac:link ac:anchor=" ++ [dquote] ++ lit "Setup" ++ [dquote]
    ++ lit ">" ++ [newline]
    ++ lit "    <ac:plain-text-link-body>" ++ [newline]
    ++ lit "        <![CDATA[" ++ lit "how to install" ++ lit "]]>"
    ++ [newline]
    ++ lit "    </ac:plain-text-link-body>" ++ [newline]
    ++ lit "</ac:link>" ++ [newline].
Proof.
  apply (proj2 (proj2 (proj2 (proj2
           (heading_link_anchor (lib := library) fresh_renderer
              (lit "#install") (Some (lit "Setup")) (lit "how to install")
              ltac:(vm_compute; reflexivity)
              ltac:(vm_compute; reflexivity)))))).
Defined.

Lemma init_requires_page_layout_witness :
  __init__ PyNone PyNone
  = inl (mkInvalidArgument (lit "page_layout") PyNone (lit "ABCMeta"))
  /\ __init__ (PyPage bare_page) PyNone = inr fresh_renderer.
Proof.
  split.
  - apply (proj1 (init_requires_page_layout PyNone PyNone)).
    left. reflexivity.
  - apply (proj2 (init_requires_page_layout (PyPage bare_page) PyNone)
                 bare_page); reflexivity.
Defined.


End Examples.

(** * The documents of a repository *)

Module DocsFacts.
Import Py PyFacts.

(** Replacing one character by another is a map over the string. *)
Lemma replace_char (a b : ascii) (s : str) :
  replace [a] [b] s = map (swap_char a b) s.
Proof.
  induction s as [|c s IH]; [reflexivity|].
  cbn [map]. unfold swap_char at 1. destruct (Ascii.eqb a c) eqn:E.
  - apply Ascii.eqb_eq in E. subst c.
    change (a :: s) with ([a] ++ s).
    rewrite replace_match by discriminate. now rewrite IH.
  - rewrite replace_nomatch; [now rewrite IH | discriminate |].
    cbn [startswith]. now rewrite E.
Qed.

Lemma swap_char_absent (a b : ascii) (s : str) :
  a <> b -> ~ In a (map (swap_char a b) s).
Proof.
  intros Hab H. apply in_map_iff in H as (c & Hc & _).
  unfold swap_char in Hc. destruct (Ascii.eqb a c) eqn:E; [congruence|].
  apply Ascii.eqb_neq in E. congruence.
Qed.

Lemma swap_char_id (a b : ascii) (s : str) :
  ~ In a s -> map (swap_char a b) s = s.
Proof.
  induction s as [|c s IH]; intros H; [reflexivity|].
  cbn [map]. rewrite IH by (intros Hin; apply H; now right).
  unfold swap_char. destruct (Ascii.eqb a c) eqn:E; [|reflexivity].
  apply Ascii.eqb_eq in E. subst. exfalso. apply H. now left.
Qed.

(** The loop of [normalize_path], one turn at a time. *)
Lemma strip_parent_steps_step (rest : str) :
  strip_parent_steps (parent_step ++ rest) = strip_parent_steps rest.
Proof.
  change (parent_step ++ rest)
    with ("."%char :: "."%char :: backslash :: rest).
  cbn [strip_parent_steps].
  change ("."%char :: "."%char :: backslash :: rest)
    with (parent_step ++ rest).
  now rewrite startswith_app.
Qed.

Lemma strip_parent_steps_done (path : str) :
  startswith parent_step path = false -> strip_parent_steps path = path.
Proof. intros H. destruct path; cbn [strip_parent_steps]; now rewrite H. Qed.

(** The loop takes leading parent steps off, and stops where none is left. *)
Lemma strip_parent_steps_split (path : str) :
  exists k,
    path = concat (repeat parent_step k) ++ strip_parent_steps path
    /\ startswith parent_step (strip_parent_steps path) = false.
Proof.
  remember (length path) as n eqn:Hn. revert path Hn.
  induction n as [n IH] using lt_wf_ind. intros path Hn.
  destruct (startswith parent_step path) eqn:E.
  - apply startswith_inv in E as [rest ->].
    destruct (IH (length rest)) with (path := rest) as (k & Hk & Hstop).
    + subst n. rewrite length_app. simpl. lia.
    + reflexivity.
    + exists (S k). rewrite strip_parent_steps_step. split; [|exact Hstop].
      cbn [repeat concat]. rewrite <- app_assoc. now rewrite <- Hk.
  - exists 0. now rewrite strip_parent_steps_done.
Qed.

Lemma strip_parent_steps_suffix (path : str) (c : ascii) :
  In c (strip_parent_steps path) -> In c path.
Proof.
  destruct (strip_parent_steps_split path) as (k & Hk & _).
  intros H. rewrite Hk. apply in_or_app. now right.
Qed.

(** What [normalize_path] answers has no [/] and no leading parent step. *)
Lemma normalize_path_shape_aux (file_path : str) :
  ~ In "/"%char (normalize_path file_path)
  /\ startswith parent_step (normalize_path file_path) = false.
Proof.
  unfold normalize_path. change (lit "/") with ["/"%char].
  rewrite replace_char.
  destruct (strip_parent_steps_split
              (map (swap_char "/" backslash) file_path)) as (k & Hk & Hstop).
  split; [|exact Hstop].
  intros H. apply strip_parent_steps_suffix in H.
  revert H. apply swap_char_absent. discriminate.
Qed.

End DocsFacts.

Section NormalizePath.
Import Py PyFacts DocsFacts.

(** X1.  [normalize_path] answers a path without [/] that does not start
    with a parent step [..\]: it is the path given, every [/] turned into a
    backslash, without the parent steps it started with. *)
Theorem normalize_path_shape (file_path : str) :
  ~ In "/"%char (normalize_path file_path)
  /\ startswith parent_step (normalize_path file_path) = false
  /\ exists k,
       map (swap_char "/" backslash) file_path
       = concat (repeat parent_step k) ++ normalize_path file_path.
Proof.
  unfold normalize_path. change (lit "/") with ["/"%char].
  rewrite replace_char.
  destruct (strip_parent_steps_split
              (map (swap_char "/" backslash) file_path)) as (k & Hk & Hstop).
  split; [|split; [exact Hstop | now exists k]].
  intros H. apply strip_parent_steps_suffix in H.
  revert H. apply swap_char_absent. discriminate.
Qed.

(** X2.  [normalize_path] leaves a path alone that has no [/] and does not
    start with a parent step; so normalizing twice is normalizing once. *)
Theorem normalize_path_idempotent (file_path : str) :
  (~ In "/"%char file_path -> startswith parent_step file_path = false ->
   normalize_path file_path = file_path)
  /\ normalize_path (normalize_path file_path) = normalize_path file_path.
Proof.
  assert (Hid : forall p, ~ In "/"%char p ->
                  startswith parent_step p = false -> normalize_path p = p).
  { intros p Hp Hstart. unfold normalize_path.
    change (lit "/") with ["/"%char].
    rewrite replace_char, swap_char_id by assumption.
    now apply strip_parent_steps_done. }
  split; [apply Hid|].
  destruct (normalize_path_shape_aux file_path) as (H1 & H2).
  now apply Hid.
Qed.

End NormalizePath.

Module DirectoryFacts.
Import Py PyFacts.

Lemma contains_refl (s : str) : contains s s = true.
Proof.
  pose proof (contains_intro s [] []) as H.
  cbn [app] in H. now rewrite app_nil_r in H.
Qed.

(** The key a search stops at holds its own value. *)
Lemma dict_get_found {V : Type} (p : str -> bool) (d : dict V) :
  match find p (map fst d) with
  | Some k => dict_get k d
  | None => None
  end
  = option_map snd (find (fun kv => p (fst kv)) d).
Proof.
  induction d as [|[k v] d IH]; [reflexivity|].
  cbn [map fst find]. destruct (p k) eqn:E.
  - cbn [dict_get option_map snd]. now rewrite str_eqb_refl.
  - rewrite <- IH. destruct (find p (map fst d)) as [k'|] eqn:F;
      [|reflexivity].
    cbn [dict_get]. destruct (str_eqb k k') eqn:Ek; [|reflexivity].
    apply str_eqb_eq in Ek. subst k'.
    apply find_some in F as [_ F]. congruence.
Qed.

(** [find_file] answers the file at the first path that holds the name. *)
Lemma find_file_first (d : Directory.t) (name : str) :
  Directory.find_file d name
  = option_map snd
      (find (fun kv => contains name (fst kv)) (Directory.md_files d)).
Proof. unfold Directory.find_file. apply dict_get_found. Qed.

Lemma dict_set_in {V : Type} (k : str) (v : V) (d : dict V) :
  In (k, v) (dict_set k v d).
Proof.
  induction d as [|[k' v'] d IH]; cbn [dict_set]; [now left|].
  destruct (str_eqb k' k) eqn:E; [|now right].
  apply str_eqb_eq in E. subst. now left.
Qed.

(** A new key goes to the end. *)
Lemma dict_set_new {V : Type} (k : str) (v : V) (d : dict V) :
  ~ In k (map fst d) -> dict_set k v d = d ++ [(k, v)].
Proof.
  induction d as [|[k' v'] d IH]; intros H; [reflexivity|].
  cbn [dict_set]. destruct (str_eqb k' k) eqn:E.
  - apply str_eqb_eq in E. subst. exfalso. apply H. now left.
  - cbn [app]. rewrite IH; [reflexivity|]. intros Hin. apply H. now right.
Qed.

(** A key that is there keeps its place; the number of entries stays. *)
Lemma dict_set_old {V : Type} (k : str) (v : V) (d : dict V) :
  In k (map fst d) -> map fst (dict_set k v d) = map fst d.
Proof.
  induction d as [|[k' v'] d IH]; intros H; [destruct H|].
  cbn [dict_set]. destruct (str_eqb k' k) eqn:E; [reflexivity|].
  cbn [map fst]. rewrite IH; [reflexivity|].
  destruct H as [H | H]; [|exact H].
  cbn [fst] in H. subst. now rewrite str_eqb_refl in E.
Qed.

Lemma dict_get_set {V : Type} (k : str) (v : V) (d : dict V) :
  dict_get k (dict_set k v d) = Some v.
Proof.
  induction d as [|[k' v'] d IH]; cbn [dict_set dict_get].
  - now rewrite str_eqb_refl.
  - destruct (str_eqb k' k) eqn:E; cbn [dict_get]; now rewrite E.
Qed.

(** What is in a dictionary after [d[k] = v]: [v], or what was there. *)
Lemma dict_set_inv {V : Type} (k : str) (v : V) (d : dict V) (kv : str * V) :
  In kv (dict_set k v d) -> kv = (k, v) \/ In kv d.
Proof.
  induction d as [|[k' v'] d IH]; cbn [dict_set]; intros H.
  - destruct H as [H | []]. now left.
  - destruct (str_eqb k' k) eqn:E.
    + apply str_eqb_eq in E. subst k'.
      destruct H as [H | H]; [now left | right; now right].
    + destruct H as [H | H]; [right; now left|].
      destruct (IH H) as [H' | H']; [now left | right; now right].
Qed.

(** A search that fails on [items] goes on to what follows. *)
Lemma find_after_none {A : Type} (p : A -> bool) (items : list A) (x : A) :
  find p items = None ->
  find p (items ++ [x]) = if p x then Some x else None.
Proof.
  induction items as [|y items IH]; intros H; [reflexivity|].
  cbn [find app] in *. destruct (p y); [discriminate | now apply IH].
Qed.

End DirectoryFacts.

Section DirectoryClaims.
Import Py PyFacts DirectoryFacts.

(** X4.  [find_file] answers a file stored under a path that holds the
    name as a substring, the first such path in the order of insertion, and
    [None] exactly when no stored path holds the name.  The empty name is
    held by every path: it finds the first file of the directory. *)
Theorem find_file_substring (d : Directory.t) (name : str) :
  (Directory.find_file d name = None <->
   forall k f, In (k, f) (Directory.md_files d) -> contains name k = false)
  /\ (forall f, Directory.find_file d name = Some f ->
        exists before k after,
          Directory.md_files d = before ++ (k, f) :: after
          /\ contains name k = true
          /\ forall kv, In kv before -> contains name (fst kv) = false)
  /\ Directory.find_file d [] = option_map snd (hd_error (Directory.md_files d)).
Proof.
  rewrite !find_file_first. split; [|split].
  - destruct (find _ _) as [[k f]|] eqn:F; cbn [option_map]; split.
    + discriminate.
    + intros H. apply find_some in F as [Hin Hk]. cbn [fst] in Hk.
      now rewrite (H _ _ Hin) in Hk.
    + intros _ k f Hin.
      apply (find_none _ _ F (k, f) Hin).
    + reflexivity.
  - intros f H. induction (Directory.md_files d) as [|[k g] items IH];
      [discriminate|].
    cbn [find fst] in H. destruct (contains name k) eqn:E.
    + injection H as ->. exists [], k, items. repeat split; [exact E|].
      intros kv [].
    + destruct (IH H) as (before & k' & after & -> & Hk & Hbefore).
      exists ((k, g) :: before), k', after. repeat split; [exact Hk|].
      intros kv [<- | Hin]; [exact E | now apply Hbefore].
  - destruct (Directory.md_files d) as [|[k f] items]; [reflexivity|].
    cbn [find fst hd_error option_map]. now destruct k.
Qed.

(** X5.  After [add_file] the directory is not empty, and looking a file up
    by its own path finds a file; it finds the file added when no path
    stored before holds that path.  Adding again under the same path puts
    the new file in the place of the old one. *)
Theorem add_file_then_find (d : Directory.t) (f : MarkdownFile.t) :
  Directory.__bool__ (Directory.add_file d f) = true
  /\ Directory.find_file (Directory.add_file d f) (MarkdownFile.path f)
     <> None
  /\ (Directory.find_file d (MarkdownFile.path f) = None ->
      Directory.find_file (Directory.add_file d f) (MarkdownFile.path f)
      = Some f)
  /\ (forall g, MarkdownFile.path g = MarkdownFile.path f ->
      map fst (Directory.md_files (Directory.add_file (Directory.add_file d f) g))
      = map fst (Directory.md_files (Directory.add_file d f))
      /\ dict_get (MarkdownFile.path f)
           (Directory.md_files (Directory.add_file (Directory.add_file d f) g))
         = Some g).
Proof.
  pose proof (dict_set_in (MarkdownFile.path f) f (Directory.md_files d))
    as Hin.
  split; [|split; [|split]].
  - unfold Directory.__bool__, Directory.add_file. cbn [Directory.md_files].
    destruct (dict_set _ _ _); [destruct Hin | reflexivity].
  - rewrite find_file_first. unfold Directory.add_file.
    cbn [Directory.md_files].
    destruct (find _ _) eqn:F; [discriminate|].
    pose proof (find_none _ _ F _ Hin) as H. cbn [fst] in H.
    now rewrite contains_refl in H.
  - rewrite !find_file_first. intros H.
    destruct (find _ (Directory.md_files d)) eqn:F; [discriminate|]. clear H.
    unfold Directory.add_file. cbn [Directory.md_files].
    rewrite dict_set_new.
    + rewrite find_after_none by exact F. cbn [fst].
      now rewrite contains_refl.
    + intros Hk. apply in_map_iff in Hk as ([k g] & Hk & Hkg).
      cbn [fst] in Hk. subst k.
      pose proof (find_none _ _ F _ Hkg) as H. cbn [fst] in H.
      now rewrite contains_refl in H.
  - intros g Hg. unfold Directory.add_file. cbn [Directory.md_files].
    rewrite Hg. split; [|apply dict_get_set].
    apply dict_set_old. apply in_map_iff.
    exists (MarkdownFile.path f, f). split; [reflexivity | exact Hin].
Qed.

End DirectoryClaims.

Module ScanFacts.
Import Py PyFacts DirectoryFacts.

(** Steps that change nothing can be left out of a loop. *)
Lemma fold_left_filter {A B : Type} (f : A -> B -> A) (p : B -> bool)
    (l : list B) (a : A) :
  (forall a x, p x = false -> f a x = a) ->
  fold_left f (filter p l) a = fold_left f l a.
Proof.
  intros H. revert a; induction l as [|x l IH]; intros a; [reflexivity|].
  cbn [filter fold_left]. destruct (p x) eqn:E.
  - cbn [fold_left]. apply IH.
  - rewrite (H a x E). apply IH.
Qed.

(** A loop invariant. *)
Lemma fold_left_invariant {A B : Type} (f : A -> B -> A) (P : A -> Prop)
    (l : list B) (a : A) :
  P a -> (forall a x, In x l -> P a -> P (f a x)) -> P (fold_left f l a).
Proof.
  revert a; induction l as [|x l IH]; intros a Ha H; [exact Ha|].
  cbn [fold_left]. apply IH.
  - apply H; [now left | exact Ha].
  - intros a' y Hy. apply H. now right.
Qed.

Lemma contains_in (sub s : str) (c : ascii) :
  contains sub s = true -> In c sub -> In c s.
Proof.
  intros H Hc. apply contains_inv in H as (u & v & ->).
  apply in_or_app. right. apply in_or_app. now left.
Qed.

End ScanFacts.

Section RepositoryClaims.
Import Py PyFacts DirectoryFacts ScanFacts.

Context {FrontMatter : Type}.
Variable read_text : str -> option str.
Variable yaml_load : str -> option FrontMatter.
Variable getitem : FrontMatter -> str -> option str.

Local Abbreviation new_file :=
  (MarkdownFile.__init__ read_text yaml_load getitem).
Local Abbreviation scan :=
  (MarkdownPages.__scan_repository__ read_text yaml_load getitem).

(** X3.  A [MarkdownFile] that is built holds the path of its file, the
    title under the key [title] of the front matter of that file, and as
    slug the file name, an underscore and the directory name, in this
    order and with the extension, every hyphen turned into an underscore. *)
Theorem markdown_file_fields (file_name dir_name abs_path : str)
    (f : MarkdownFile.t) :
  new_file file_name dir_name abs_path = Some f ->
  MarkdownFile.path f = PosixPath.join abs_path file_name
  /\ MarkdownFile.slug f
     = map (swap_char "-" "_") (file_name ++ lit "_" ++ dir_name)
  /\ ~ In "-"%char (MarkdownFile.slug f)
  /\ exists post front_matter markdown,
       read_text (MarkdownFile.path f) = Some post
       /\ parse yaml_load post = Some (front_matter, markdown)
       /\ getitem front_matter (lit "title") = Some (MarkdownFile.title f).
Proof.
  unfold MarkdownFile.__init__, MarkdownFile.__get_slug__.
  change (lit "-") with ["-"%char]. change (lit "_") with ["_"%char].
  rewrite DocsFacts.replace_char.
  destruct (read_text _) as [post|] eqn:Hread; [|discriminate].
  destruct (parse yaml_load post) as [[fm md]|] eqn:Hparse; [|discriminate].
  destruct (getitem fm _) as [title|] eqn:Htitle; [|discriminate].
  intros [= <-]. cbn [MarkdownFile.path MarkdownFile.slug MarkdownFile.title].
  repeat split.
  - apply DocsFacts.swap_char_absent. discriminate.
  - now exists post, fm, md.
Qed.

(** What the loop over the files of one directory keeps. *)
Lemma scan_file_skips (dir_path : str) (directory : Directory.t)
    (file : str) :
  loads read_text yaml_load getitem dir_path file = false ->
  MarkdownPages.scan_file read_text yaml_load getitem
    (OsPath.basename dir_path) dir_path directory file = directory.
Proof.
  unfold loads, MarkdownPages.scan_file. intros H.
  destruct (str_eqb _ MarkdownPages.__MARKDOWN_EXT__); [|reflexivity].
  cbn [negb andb] in *.
  now destruct (new_file file (OsPath.basename dir_path) dir_path).
Qed.

Lemma scan_directory_skips (tree : MarkdownPages.t)
    (entry : str * list str * list str) :
  not_assets entry = false ->
  MarkdownPages.scan_directory read_text yaml_load getitem tree entry = tree.
Proof.
  destruct entry as [[dir_path sub_dirs] files]. cbn. intros H.
  apply negb_false_iff in H. now rewrite H.
Qed.

Lemma scan_directory_keep_loading (tree : MarkdownPages.t)
    (entry : str * list str * list str) :
  MarkdownPages.scan_directory read_text yaml_load getitem tree
    (keep_loading read_text yaml_load getitem entry)
  = MarkdownPages.scan_directory read_text yaml_load getitem tree entry.
Proof.
  destruct entry as [[dir_path sub_dirs] files].
  unfold keep_loading, MarkdownPages.scan_directory, PosixPath.split.
  cbn [snd]. rewrite fold_left_filter; [reflexivity|].
  intros directory file. apply scan_file_skips.
Qed.

(** X8.  A scan goes on past what it cannot use: assets directories, files
    that are no Markdown files, and Markdown files that raise when they are
    loaded leave no trace in the tree; the scan of a walk is the scan of
    what is left of it without them. *)
Theorem scan_skips_unusable (walk : list (str * list str * list str)) :
  scan walk
  = scan (map (keep_loading read_text yaml_load getitem)
              (filter not_assets walk)).
Proof.
  unfold MarkdownPages.__scan_repository__.
  generalize (@nil (str * Directory.t)) as tree.
  induction walk as [|entry walk IH]; intros tree; [reflexivity|].
  cbn [filter fold_left]. destruct (not_assets entry) eqn:E.
  - cbn [map fold_left]. now rewrite scan_directory_keep_loading.
  - rewrite scan_directory_skips by exact E. apply IH.
Qed.

Lemma scan_files_invariant (files : list str) (dir_path : str) :
  scanned_directory read_text yaml_load getitem files dir_path
    (fold_left (MarkdownPages.scan_file read_text yaml_load getitem
                  (OsPath.basename dir_path) dir_path)
               files (Directory.__init__ dir_path)).
Proof.
  apply fold_left_invariant.
  - split; [reflexivity|]. intros k f [].
  - intros directory file Hfile [Hpath Hitems].
    unfold MarkdownPages.scan_file.
    destruct (str_eqb _ MarkdownPages.__MARKDOWN_EXT__) eqn:Hext;
      [|now split].
    cbn [negb].
    destruct (new_file file (OsPath.basename dir_path) dir_path)
      as [md_file|] eqn:Hnew; [|now split].
    split; [exact Hpath|]. intros k f Hin.
    apply dict_set_inv in Hin as [[= -> ->] | Hin]; [|now apply Hitems].
    split; [reflexivity|]. exists file. apply str_eqb_eq in Hext.
    now repeat split.
Qed.

(** X9.  Every directory in the tree of a scan stands under its own path,
    is no assets directory and is not empty; every file in it stands under
    its own path and is a Markdown file of that directory in the walk that
    loaded. *)
Theorem scan_stores_loaded_markdown
    (walk : list (str * list str * list str))
    (dir_path : str) (directory : Directory.t) :
  In (dir_path, directory) (scan walk) ->
  Directory.path directory = dir_path
  /\ OsPath.basename dir_path <> ASSETS_DIR
  /\ Directory.__bool__ directory = true
  /\ forall k f,
       In (k, f) (Directory.md_files directory) ->
       k = MarkdownFile.path f
       /\ exists sub_dirs files file,
            In (dir_path, sub_dirs, files) walk
            /\ In file files
            /\ snd (OsPath.splitext file) = lit ".md"
            /\ new_file file (OsPath.basename dir_path) dir_path = Some f.
Proof.
  unfold MarkdownPages.__scan_repository__. revert dir_path directory.
  apply (fold_left_invariant
           (MarkdownPages.scan_directory read_text yaml_load getitem)
           (fun tree => forall dir_path directory,
              In (dir_path, directory) tree ->
              Directory.path directory = dir_path
              /\ OsPath.basename dir_path <> ASSETS_DIR
              /\ Directory.__bool__ directory = true
              /\ forall k f,
                   In (k, f) (Directory.md_files directory) ->
                   k = MarkdownFile.path f
                   /\ exists sub_dirs files file,
                        In (dir_path, sub_dirs, files) walk
                        /\ In file files
                        /\ snd (OsPath.splitext file) = lit ".md"
                        /\ new_file file (OsPath.basename dir_path) dir_path
                           = Some f)).
  - intros dir_path directory [].
  - intros tree [[dp sub_dirs] files] Hentry Htree dir_path directory.
    unfold MarkdownPages.scan_directory, PosixPath.split. cbn [snd].
    destruct (str_eqb (OsPath.basename dp) ASSETS_DIR) eqn:Hassets;
      [apply Htree|].
    destruct (Directory.__bool__ _) eqn:Hbool; [|apply Htree].
    intros Hin. apply dict_set_inv in Hin as [[= -> ->] | Hin];
      [|now apply Htree].
    destruct (scan_files_invariant files dp) as [Hpath Hitems].
    apply str_eqb_neq in Hassets. repeat split; try assumption.
    + now apply Hitems.
    + destruct (Hitems _ _ H) as (_ & file & Hfile & Hext & Hnew).
      now exists sub_dirs, files, file.
Qed.

End RepositoryClaims.

Section TitleLookup.
Import Py PyFacts DirectoryFacts ScanFacts.

Lemma first_match_none (name : str) (dirs : list Directory.t) :
  MarkdownPages.first_match name dirs = None <->
  forall dir, In dir dirs -> Directory.find_file dir name = None.
Proof.
  induction dirs as [|d dirs IH]; cbn [MarkdownPages.first_match].
  - split; [intros _ dir [] | reflexivity].
  - destruct (Directory.find_file d name) eqn:E.
    + split; [discriminate|]. intros H. rewrite <- E. apply H. now left.
    + rewrite IH. split.
      * intros H dir [<- | Hin]; [exact E | now apply H].
      * intros H dir Hin. apply H. now right.
Qed.

Lemma first_match_some (name : str) (dirs : list Directory.t)
    (f : MarkdownFile.t) :
  MarkdownPages.first_match name dirs = Some f ->
  exists dir, In dir dirs /\ Directory.find_file dir name = Some f.
Proof.
  induction dirs as [|d dirs IH]; cbn [MarkdownPages.first_match];
    [discriminate|].
  destruct (Directory.find_file d name) eqn:E.
  - intros [= ->]. exists d. split; [now left | exact E].
  - intros H. destruct (IH H) as (dir & Hin & Hf).
    exists dir. split; [now right | exact Hf].
Qed.

Lemma find_file_some (d : Directory.t) (name : str) (f : MarkdownFile.t) :
  Directory.find_file d name = Some f ->
  exists k, In (k, f) (Directory.md_files d) /\ contains name k = true.
Proof.
  rewrite find_file_first.
  destruct (find _ _) as [[k g]|] eqn:F; [|discriminate].
  intros [= <-]. apply find_some in F as [Hin Hk]. now exists k.
Qed.

Lemma find_file_none (d : Directory.t) (name : str) :
  (forall k f, In (k, f) (Directory.md_files d) -> contains name k = false) ->
  Directory.find_file d name = None.
Proof.
  intros H. rewrite find_file_first.
  destruct (find _ _) as [[k g]|] eqn:F; [|reflexivity].
  apply find_some in F as [Hin Hk]. cbn [fst] in Hk.
  now rewrite (H _ _ Hin) in Hk.
Qed.

(** X6.  [get_title] looks the document up by its normalized name as a
    substring of the stored paths: it answers the title of a stored file
    whose path holds that name, and the empty string when no stored path
    holds it. *)
Theorem get_title_by_substring (self : MarkdownPages.t) (md_doc : str) :
  (exists dir_path dir k f,
      In (dir_path, dir) self
      /\ In (k, f) (Directory.md_files dir)
      /\ contains (normalize_path md_doc) k = true
      /\ MarkdownPages.get_title self md_doc = MarkdownFile.title f)
  \/ ((forall dir_path dir k f,
          In (dir_path, dir) self -> In (k, f) (Directory.md_files dir) ->
          contains (normalize_path md_doc) k = false)
      /\ MarkdownPages.get_title self md_doc = []).
Proof.
  unfold MarkdownPages.get_title.
  destruct (MarkdownPages.first_match _ _) as [f|] eqn:E.
  - left. apply first_match_some in E as (dir & Hdir & Hf).
    apply in_map_iff in Hdir as ([dir_path d] & <- & Hin).
    apply find_file_some in Hf as (k & Hk & Hname).
    now exists dir_path, d, k, f.
  - right. split; [|reflexivity].
    intros dir_path dir k f Hdir Hk.
    rewrite first_match_none in E.
    assert (Hnone : Directory.find_file dir (normalize_path md_doc) = None).
    { apply E. apply in_map_iff. now exists (dir_path, dir). }
    rewrite find_file_first in Hnone.
    destruct (find _ _) eqn:F; [discriminate|].
    apply (find_none _ _ F (k, f) Hk).
Qed.

(** X7.  A name that keeps a directory part after normalization is looked
    up with backslashes: among paths written without a backslash, as
    [posixpath.join] writes them, nothing holds it and the title is empty. *)
Theorem get_title_with_directory_part (self : MarkdownPages.t)
    (md_doc : str) :
  In backslash (normalize_path md_doc) ->
  (forall dir_path dir k f,
      In (dir_path, dir) self -> In (k, f) (Directory.md_files dir) ->
      ~ In backslash k) ->
  MarkdownPages.get_title self md_doc = [].
Proof.
  intros Hname Hpaths. unfold MarkdownPages.get_title.
  destruct (MarkdownPages.first_match _ _) as [f|] eqn:E; [|reflexivity].
  apply first_match_some in E as (dir & Hdir & Hf).
  apply in_map_iff in Hdir as ([dir_path d] & <- & Hin).
  apply find_file_some in Hf as (k & Hk & Hsub).
  exfalso. apply (Hpaths _ _ _ _ Hin Hk).
  now apply (contains_in _ _ _ Hsub).
Qed.

(** X15.  A name that is empty after normalization, as the empty link and
    a run of steps to the parent are, is held by every path: [get_title]
    answers the title of the first file of the first directory. *)
Theorem get_title_of_empty_name (self : MarkdownPages.t) (md_doc : str)
    (dir_path : str) (dir : Directory.t) (rest : MarkdownPages.t)
    (k : str) (f : MarkdownFile.t) (files : dict MarkdownFile.t) :
  normalize_path md_doc = [] ->
  self = (dir_path, dir) :: rest ->
  Directory.md_files dir = (k, f) :: files ->
  MarkdownPages.get_title self md_doc = MarkdownFile.title f.
Proof.
  intros Hname -> Hfiles. unfold MarkdownPages.get_title.
  rewrite Hname. cbn [map snd MarkdownPages.first_match].
  rewrite find_file_first, Hfiles. cbn [find fst].
  now destruct k.
Qed.

End TitleLookup.

(** * The renderer over a whole document *)

Section HookSteps.
Import Py PyFacts OsPath OsPathFacts.

Context {lib : Library}.

(** One call keeps the layout and the title lookup, appends at most one
    attachment, and never takes [has_toc] back. *)
Lemma hook_step_keeps (self self' : ConfluenceRenderer) :
  hook_step self self' ->
  page_layout self' = page_layout self
  /\ get_page_title self' = get_page_title self
  /\ (exists added, attachments self' = attachments self ++ added)
  /\ (has_toc self = true -> has_toc self' = true).
Proof.
  assert (Hsame : forall r : ConfluenceRenderer,
            page_layout r = page_layout r
            /\ get_page_title r = get_page_title r
            /\ (exists added, attachments r = attachments r ++ added)
            /\ (has_toc r = true -> has_toc r = true)).
  { intros r. split; [|split; [|split]]; try reflexivity.
    - exists []. now rewrite app_nil_r.
    - intros H; exact H. }
  assert (Hmore : forall (r : ConfluenceRenderer) a,
            page_layout (append_attachment r a) = page_layout r
            /\ get_page_title (append_attachment r a) = get_page_title r
            /\ (exists added,
                  attachments (append_attachment r a)
                  = attachments r ++ added)
            /\ (has_toc r = true -> has_toc (append_attachment r a) = true)).
  { intros r a. split; [|split; [|split]]; try reflexivity.
    - now exists [a].
    - intros H; exact H. }
  intros [r text level raw | r src title alt_text | r src title text].
  - cbn [header snd]. split; [|split; [|split]]; try reflexivity.
    exists []. cbn. now rewrite app_nil_r.
  - unfold image. destruct (negb (negb _)); cbn [snd]; auto.
  - unfold link, link_via. destruct (negb _); cbn [snd]; auto.
    destruct (resolve_link src); cbn [snd]; auto.
Qed.

(** X10.  Over any number of hook calls the renderer keeps its layout and
    its title lookup, the attachments recorded before stay, in place, at
    the head of the list, and [has_toc], once set, stays set: after a
    heading it is set whatever follows. *)
Theorem hooks_keep_and_grow (self self' : ConfluenceRenderer) :
  hook_steps self self' ->
  page_layout self' = page_layout self
  /\ get_page_title self' = get_page_title self
  /\ (exists added, attachments self' = attachments self ++ added)
  /\ (has_toc self = true -> has_toc self' = true)
  /\ (forall text level raw after,
        hook_steps (snd (header self' text level raw)) after ->
        has_toc after = true).
Proof.
  assert (Hsteps : forall r r', hook_steps r r' ->
            page_layout r' = page_layout r
            /\ get_page_title r' = get_page_title r
            /\ (exists added, attachments r' = attachments r ++ added)
            /\ (has_toc r = true -> has_toc r' = true)).
  { intros r r' H. induction H as [r | r r1 r2 _ IH Hstep].
    - split; [|split; [|split]]; try reflexivity.
      + exists []. now rewrite app_nil_r.
      + intros H; exact H.
    - destruct IH as (H1 & H2 & [a Ha] & H4).
      destruct (hook_step_keeps _ _ Hstep) as (K1 & K2 & [b Hb] & K4).
      split; [|split; [|split]]; try congruence.
      + exists (a ++ b). now rewrite Hb, Ha, app_assoc.
      + intros H. now apply K4, H4. }
  intros H. destruct (Hsteps _ _ H) as (H1 & H2 & H3 & H4).
  split; [|split; [|split; [|split]]]; try assumption.
  intros text level raw after Hafter.
  now apply (Hsteps _ _ Hafter).
Qed.

Lemma basename_last (u v : str) :
  ~ In sep v -> basename (u ++ sep :: v) = v.
Proof.
  intros H. unfold basename, from. rewrite rfind_last by assumption.
  replace (Z.to_nat (Z.of_nat (length u) + 1)) with (length (u ++ [sep]))
    by (rewrite length_app; simpl; lia).
  change (u ++ sep :: v) with (u ++ [sep] ++ v).
  now rewrite app_assoc, skipn_app, skipn_all, Nat.sub_diag.
Qed.

(** X11.  The same file [images/name] leaves two different paths in the
    attachments: an image records [/name], what follows the assets
    directory, while a link records the path as it is given; both name
    the attachment [name], as [ri:filename], in their markup. *)
Theorem attachment_paths_of_image_and_link (self : ConfluenceRenderer)
    (name : str) (title : option str) (alt_text text : str) :
  ~ In "/"%char name ->
  netloc (lit "images/" ++ name) = [] ->
  image self (lit "images/" ++ name) title alt_text
  = (tag_template (lit "<ri:attachment ri:filename=" ++ quoted name
                   ++ lit " />")
                  (strip (lit "*_") alt_text),
     append_attachment self (lit "/" ++ name))
  /\ link self (lit "images/" ++ name) title text
     = (attachment_link name text,
        append_attachment self (lit "images/" ++ name))
  /\ attachments (snd (image self (lit "images/" ++ name) title alt_text))
     = attachments self ++ [lit "/" ++ name]
  /\ attachments (snd (link self (lit "images/" ++ name) title text))
     = attachments self ++ [lit "images/" ++ name]
  /\ fst (image self (lit "images/" ++ name) title alt_text)
     = lit "<ac:image ac:align=" ++ [dquote] ++ lit "center" ++ [dquote]
       ++ lit "><ri:attachment ri:filename=" ++ [dquote] ++ name ++ [dquote]
       ++ lit " /> <div style=" ++ [dquote] ++ lit "text-align: center;"
       ++ [dquote] ++ lit "><em>" ++ strip (lit "*_") alt_text
       ++ lit "</em></div></ac:image>"
  /\ fst (link self (lit "images/" ++ name) title text)
     = lit "<ac:link>" ++ [newline]
       ++ lit "    <ri:attachment ri:filename=" ++ [dquote] ++ name
       ++ [dquote] ++ lit " />" ++ [newline]
       ++ lit "    <ac:plain-text-link-body>" ++ [newline]
       ++ lit "        <![CDATA[" ++ text ++ lit "]]>" ++ [newline]
       ++ lit "    </ac:plain-text-link-body>" ++ [newline]
       ++ lit "</ac:link>" ++ [newline].
Proof.
  intros Hname Hsrc.
  assert (Hbase : basename (lit "images/" ++ name) = name).
  { change (lit "images/" ++ name) with (lit "images" ++ sep :: name).
    now apply basename_last. }
  assert (Himage :
            image self (lit "images/" ++ name) title alt_text
            = (tag_template (lit "<ri:attachment ri:filename=" ++ quoted name
                             ++ lit " />")
                            (strip (lit "*_") alt_text),
               append_attachment self (lit "/" ++ name))).
  { unfold image. rewrite (internal_src _ Hsrc), Hbase. reflexivity. }
  assert (Hlink :
            link self (lit "images/" ++ name) title text
            = (attachment_link name text,
               append_attachment self (lit "images/" ++ name))).
  { unfold link, link_via. rewrite (internal_src _ Hsrc), Hbase.
    assert (Hkind : resolve_link (lit "images/" ++ name) = ATTACHMENT).
    { unfold resolve_link.
      change (startswith (lit "#") (lit "images/" ++ name)) with false.
      cbv iota.
      assert (E : dirname (lit "images/" ++ name) = lit "images").
      { apply dirname_images. exists 0, name. split; [reflexivity|].
        exact Hname. }
      now rewrite E. }
    now rewrite Hkind. }
  split; [exact Himage|]. split; [exact Hlink|].
  rewrite Himage, Hlink. cbn [fst snd append_attachment attachments].
  split; [reflexivity|]. split; [reflexivity|]. split.
  - apply MarkupFacts.attachment_image_text.
  - apply MarkupFacts.attachment_link_text.
Qed.

End HookSteps.

(** * The four kinds of alert *)

Module AlertKindFacts.
Import Py PyFacts AlertFacts.












End AlertKindFacts.

Section AlertKinds.
Import Py PyFacts AlertFacts AlertKindFacts.




















(** X12.  HTML without raw delimiters comes back as it is. *)
Theorem convert_leaves_clean_html (html : str) :
  has_delimiter html = false -> convert_info_macros html = html.
Proof. apply convert_absent. Qed.

End AlertKinds.

(** * The repository and the renderer at work

    Each statement below runs a theorem above on the repository of
    [ReferenceDocs] and the library functions of [Reference]. *)

Section MoreExamples.
Import Py OsPath Reference ReferenceDocs.

Lemma normalize_path_idempotent_witness :
  normalize_path (lit "release-notes.md") = lit "release-notes.md".
Proof.
  apply (proj1 (normalize_path_idempotent (lit "release-notes.md"))).
  - vm_compute. intuition discriminate.
  - vm_compute; reflexivity.
Defined.

Lemma markdown_file_fields_witness :
  MarkdownFile.slug release_notes
  = map (swap_char "-" "_") (lit "release-notes.md" ++ lit "_" ++ lit "guides").
Proof.
  apply (markdown_file_fields read_text yaml_load getitem
           (lit "release-notes.md") (lit "guides")
           (lit "/repo/content/guides") release_notes).
  vm_compute; reflexivity.
Defined.

Lemma find_file_substring_witness :
  exists before k after,
    Directory.md_files guides = before ++ (k, release_notes) :: after
    /\ contains (lit "notes") k = true
    /\ forall kv, In kv before -> contains (lit "notes") (fst kv) = false.
Proof.
  apply (proj1 (proj2 (find_file_substring guides (lit "notes")))
               release_notes).
  vm_compute; reflexivity.
Defined.

Lemma add_file_then_find_witness :
  Directory.find_file
    (Directory.add_file (Directory.__init__ (lit "/repo/content/guides"))
                        release_notes)
    (MarkdownFile.path release_notes)
  = Some release_notes.
Proof.
  apply (proj1 (proj2 (proj2
           (add_file_then_find
              (Directory.__init__ (lit "/repo/content/guides"))
              release_notes)))).
  vm_compute; reflexivity.
Defined.

Lemma get_title_with_directory_part_witness :
  MarkdownPages.get_title tree (lit "../guides/release-notes.md") = [].
Proof.
  apply (get_title_with_directory_part tree
           (lit "../guides/release-notes.md")).
  - vm_compute. auto 10.
  - intros dir_path dir k f Hdir Hk.
    vm_compute in Hdir. destruct Hdir as [Hdir | []].
    injection Hdir as <- <-.
    vm_compute in Hk. destruct Hk as [Hk | []].
    injection Hk as <- <-.
    vm_compute. intuition discriminate.
Defined.

Lemma get_title_of_empty_name_witness :
  MarkdownPages.get_title tree (lit "../") = lit "Release notes".
Proof.
  apply (get_title_of_empty_name tree (lit "../")
           (lit "/repo/content/guides") guides []
           (lit "/repo/content/guides/release-notes.md") release_notes []);
    vm_compute; reflexivity.
Defined.

Lemma scan_stores_loaded_markdown_witness :
  Directory.path guides = lit "/repo/content/guides"
  /\ basename (lit "/repo/content/guides") <> ASSETS_DIR
  /\ Directory.__bool__ guides = true.
Proof.
  assert (H : In (lit "/repo/content/guides", guides) tree)
    by (vm_compute; now left).
  pose proof (scan_stores_loaded_markdown read_text yaml_load getitem walk
                (lit "/repo/content/guides") guides H) as (H1 & H2 & H3 & _).
  exact (conj H1 (conj H2 H3)).
Defined.

Lemma hooks_keep_and_grow_witness :
  has_toc after_image = true
  /\ exists added,
       attachments after_image = attachments fresh_renderer ++ added.
Proof.
  assert (H1 : hook_steps (lib := library) fresh_renderer after_heading).
  { apply (steps_more fresh_renderer fresh_renderer).
    - apply steps_none.
    - apply (step_header fresh_renderer (lit "Changes") 1 None). }
  assert (H2 : hook_steps (lib := library) after_heading after_image).
  { apply (steps_more after_heading after_heading).
    - apply steps_none.
    - apply (step_image after_heading (lit "images/pic.png") None
                        (lit "A picture")). }
  split.
  - apply (proj2 (proj2 (proj2 (proj2
             (hooks_keep_and_grow (lib := library) fresh_renderer
                                  fresh_renderer (steps_none _)))))
           (lit "Changes") 1 None after_image).
    exact H2.
  - apply (hooks_keep_and_grow (lib := library) fresh_renderer after_image).
    apply (steps_more fresh_renderer after_heading); [exact H1|].
    apply (step_image after_heading (lit "images/pic.png") None
                      (lit "A picture")).
Defined.

Lemma attachment_paths_of_image_and_link_witness :
  attachments (snd (image (lib := library) fresh_renderer
                          (lit "images/" ++ lit "pic.png") None
                          (lit "A picture")))
  = [lit "/pic.png"]
  /\ attachments (snd (link (lib := library) fresh_renderer
                            (lit "images/" ++ lit "pic.png") None
                            (lit "the picture")))
     = [lit "images/pic.png"]
  /\ fst (link (lib := library) fresh_renderer
               (lit "images/" ++ lit "pic.png") None (lit "the picture"))
     = lit "<ac:link>" ++ [newline]
       ++ lit "    <ri:attachment ri:filename=" ++ [dquote] ++ lit "pic.png"
       ++ [dquote] ++ lit " />" ++ [newline]
       ++ lit "    <ac:plain-text-link-body>" ++ [newline]
       ++ lit "        <![CDATA[" ++ lit "the picture" ++ lit "]]>"
       ++ [newline]
       ++ lit "    </ac:plain-text-link-body>" ++ [newline]
       ++ lit "</ac:link>" ++ [newline].
Proof.
  assert (Hname : ~ In "/"%char (lit "pic.png"))
    by (vm_compute; intuition discriminate).
  assert (Hsrc : netloc (Library := library) (lit "images/" ++ lit "pic.png")
                 = []) by (vm_compute; reflexivity).
  destruct (attachment_paths_of_image_and_link (lib := library)
              fresh_renderer (lit "pic.png") None (lit "A picture")
              (lit "the picture") Hname Hsrc)
    as (_ & _ & Himage & Hlink & _ & Hmarkup).
  exact (conj Himage (conj Hlink Hmarkup)).
Defined.

Lemma convert_leaves_clean_html_witness :
  convert_info_macros (lit "<p>Ratio 3:1 ~ 75%?</p>")
  = lit "<p>Ratio 3:1 ~ 75%?</p>".
Proof.
  apply (convert_leaves_clean_html (lit "<p>Ratio 3:1 ~ 75%?</p>")).
  vm_compute; reflexivity.
Defined.



End MoreExamples.
